(** * ESP32 OTA update server: the firmware catalog and the update negotiation

    A shallow embedding of [index.js] (the Express server that keeps the
    firmware on the local disk) and of its sibling that keeps the firmware in
    a public S3 bucket, followed by the properties of the catalog, of the
    update decision, of the release validation and of the bearer-key
    middleware.

    Conventions of the embedding.
    - A JavaScript string is a sequence of code units; the embedding uses
      Rocq's [string], whose characters are the code units 0..255.  This is
      exactly what Node gives for header values (decoded as latin1); for
      query and body values it leaves out the code units above 255.  The
      ordering [<] and [Array.prototype.sort] compare code units, here
      [N_of_ascii].
    - [undefined] is [None] of an [option].
    - The two global objects [AVAILABLE_FIRMWARE] and [devicesDb] are the two
      fields of [State]; a handler takes the state and returns the new one.
    - The disk, the network and the clock are oracles handed to the handler
      ([Disk], [Net], [now]); every call a handler makes to the disk or to
      the network is appended to the trace it returns.
    - [console.log] is not modelled. *)

From Stdlib Require Import ZArith NArith String Ascii List Bool.
From stdpp Require Import base option list sorting gmap strings.

Local Open Scope Z_scope.
Local Open Scope string_scope.

(** ** JavaScript primitives used by the server *)

Module Js.

(** [!x] for a value that is a string or [undefined]: the empty string
    and [undefined] are the falsy ones. *)
Definition truthy (x : option string) : bool :=
  match x with
  | Some (String _ _) => true
  | Some EmptyString => false
  | None => false
  end.

(** [a || b] for strings: [a] when it is truthy, else [b]. *)
Definition or_else (a b : option string) : option string :=
  if truthy a then a else b.

(** A template literal prints [undefined] as the nine letters. *)
Definition interpolate (x : option string) : string :=
  match x with
  | Some s => s
  | None => "undefined"
  end.

Definition code (c : ascii) : N := N_of_ascii c.

(** [x < y] on two strings: code unit by code unit, a proper prefix is
    smaller.  [String.ltb] is that comparison, on [N_of_ascii]. *)
Definition string_lt (x y : string) : bool := String.ltb x y.

(** [x < y] where [y] may be [undefined]: [undefined] converts to [NaN]
    and every comparison with [NaN] is [false]. *)
Definition lt (x : string) (y : option string) : bool :=
  match y with
  | Some y' => string_lt x y'
  | None => false
  end.

(** The order [Array.prototype.sort] uses without a comparator on an array
    of strings: [x] is placed before [y] unless [y < x]. *)
Definition string_le (x y : string) : Prop := String.leb x y = true.

#[export] Instance string_le_dec : RelDecision string_le.
Proof. intros x y. unfold string_le. apply _. Defined.

Definition sort (l : list string) : list string := merge_sort string_le l.

(** [String.prototype.toLowerCase] on the code units 0..255: A-Z and the
    Latin-1 capitals U+00C0..U+00DE (without the multiplication sign
    U+00D7) move up by 32. *)
Definition lower_char (c : ascii) : ascii :=
  let n := code c in
  if ((65 <=? n) && (n <=? 90))%N then ascii_of_N (n + 32)
  else if ((192 <=? n) && (n <=? 222) && negb (n =? 215))%N
       then ascii_of_N (n + 32)
       else c.

Fixpoint toLowerCase (s : string) : string :=
  match s with
  | EmptyString => EmptyString
  | String c s' => String (lower_char c) (toLowerCase s')
  end.

(** [s.split(sep)] for a separator of one character.  The result is never
    empty: the empty string splits into one empty part. *)
Fixpoint split (sep : ascii) (s : string) : list string :=
  match s with
  | EmptyString => [EmptyString]
  | String c s' =>
      if Ascii.eqb c sep then EmptyString :: split sep s'
      else match split sep s' with
           | p :: ps => String c p :: ps
           | [] => [String c EmptyString]
           end
  end.

(** Numbers, as far as the server meets them: the result of [parseInt] and
    the size of a file.  [Int z] is the double whose value is the integer
    [z] (zero is the positive zero). *)
Inductive number : Type :=
| NaN
| Int (z : Z)
| NegZero
| Infinity
| NegInfinity.

Definition is_white (c : ascii) : bool :=
  let n := code c in
  ((n =? 9) || (n =? 10) || (n =? 11) || (n =? 12) || (n =? 13)
   || (n =? 32) || (n =? 160))%N.

Fixpoint trimStart (s : string) : string :=
  match s with
  | EmptyString => EmptyString
  | String c s' => if is_white c then trimStart s' else s
  end.

Definition digit_value (c : ascii) : option Z :=
  let n := Z.of_N (code c) in
  if ((48 <=? n) && (n <=? 57))%Z then Some (n - 48)
  else if ((97 <=? n) && (n <=? 122))%Z then Some (n - 87)
  else if ((65 <=? n) && (n <=? 90))%Z then Some (n - 55)
  else None.

(** The value of the longest prefix of [s] made of digits of radix [R];
    [acc] is [None] as long as no digit was read. *)
Fixpoint digits (R : Z) (s : string) (acc : option Z) : option Z :=
  match s with
  | EmptyString => acc
  | String c s' =>
      match digit_value c with
      | Some d =>
          if (d <? R)%Z then digits R s' (Some (R * default 0 acc + d))
          else acc
      | None => acc
      end
  end.

(** The value of the double nearest to the natural number [n]: [n] itself
    when it has at most 53 bits; otherwise its 53 leading bits, rounded
    up when the bits cut off are more than half a unit, or exactly half
    and the 53 bits are odd (ties to even). *)
Definition nearest_double (n : Z) : Z :=
  let bits := Z.log2 n + 1 in
  if (bits <=? 53)%Z then n
  else
    let e := bits - 53 in
    let q := Z.shiftr n e in
    let r := n - Z.shiftl q e in
    let half := Z.shiftl 1 (e - 1) in
    let q' :=
      if (half <? r)%Z || ((r =? half)%Z && Z.odd q) then q + 1 else q in
    Z.shiftl q' e.

(** The number for a sign and a magnitude read from digits: the nearest
    double, an infinity from 2^1024 on, and the negative zero for [-0]. *)
Definition to_number (negative : bool) (n : Z) : number :=
  let m := nearest_double n in
  if (2 ^ 1024 <=? m)%Z then (if negative then NegInfinity else Infinity)
  else if (m =? 0)%Z then (if negative then NegZero else Int 0)
  else Int (if negative then - m else m).

(** [parseInt(s)] without a radix, as Node computes it: leading white
    space, a sign, [0x] or [0X] for radix 16, the longest run of digits,
    and the double nearest to its value; [NaN] without a digit. *)
Definition parseInt (s : string) : number :=
  let s1 := trimStart s in
  let '(negative, s2) :=
    match s1 with
    | String "-" r => (true, r)
    | String "+" r => (false, r)
    | _ => (false, s1)
    end in
  let '(R, s3) :=
    match s2 with
    | String "0" (String "x" r) => (16, r)
    | String "0" (String "X" r) => (16, r)
    | _ => (10, s2)
    end in
  match digits R s3 None with
  | Some n => to_number negative n
  | None => NaN
  end.

(** *** Objects used as dictionaries

    An object literal [{...}] is its own properties, a [gmap], in front of
    [Object.prototype].  [Object.keys] lists the own keys; JavaScript lists
    them integer-like keys first and then in insertion order, the embedding
    in the order of [map_to_list]: the server sorts the list before it
    reads it. *)
Definition Object_keys {V} (o : gmap string V) : list string :=
  (map_to_list o).*1.

(** The names every object literal inherits from [Object.prototype]
    (Node).  Each of them reads as a function or, for [__proto__], as the
    prototype object: a truthy value. *)
Definition Object_prototype_names : list string :=
  [ "constructor"; "__defineGetter__"; "__defineSetter__"; "hasOwnProperty";
    "__lookupGetter__"; "__lookupSetter__"; "isPrototypeOf";
    "propertyIsEnumerable"; "toString"; "valueOf"; "__proto__";
    "toLocaleString" ].

Definition inherited (k : string) : bool :=
  bool_decide (k ∈ Object_prototype_names).

(** The result of the read [o[k]]. *)
Inductive read (V : Type) : Type :=
| Own (v : V)
| Inherited
| Undefined.
Arguments Own {V} v.
Arguments Inherited {V}.
Arguments Undefined {V}.

Definition get {V} (o : gmap string V) (k : string) : read V :=
  match o !! k with
  | Some v => Own v
  | None => if inherited k then Inherited else Undefined
  end.

(** [!!o[k]] when the own values are objects (always truthy). *)
Definition has_truthy {V} (o : gmap string V) (k : string) : bool :=
  match get o k with
  | Own _ => true
  | Inherited => true
  | Undefined => false
  end.

(** The write [o[k] = v] of an object [v].  Writing [__proto__] runs the
    setter inherited from [Object.prototype]: it replaces the prototype of
    [o] and creates no own property.  Every other key becomes (or stays)
    an own property. *)
Definition set {V} (o : gmap string V) (k : string) (v : V) : gmap string V :=
  if String.eqb k "__proto__" then o else <[k := v]> o.

(** [l[i]] for an integer [i]: [undefined] outside the array. *)
Definition index {A} (l : list A) (i : Z) : option A :=
  if (i <? 0)%Z then None else l !! Z.to_nat i.

End Js.

(** ** Data model *)

(** One entry of [AVAILABLE_FIRMWARE]. *)
Record FirmwareRelease : Type := {
  filename : string;
  release_date : string;
  changelog : string;
  mandatory : bool
}.

(** One entry of [devicesDb]; [rssi] is [None] for [null]. *)
Record DeviceRecord : Type := {
  last_check : string;
  current_version : string;
  rssi : option Js.number
}.

(** The two global objects of the process. *)
Record State : Type := {
  AVAILABLE_FIRMWARE : gmap string FirmwareRelease;
  devicesDb : gmap string DeviceRecord
}.

Definition VALID_API_KEYS : gset string := {[ "test123"; "prod456" ]}.

(** What a request carries.  A query or body field that is absent is
    [None]; the fields are strings (and [mandatory] a boolean): a query
    parameter given twice, which Express turns into an array, and a JSON
    body with numbers or objects in these places are outside the
    embedding. *)
Module headers.
Record t : Type := {
  authorization : option string;
  x_forwarded_proto : option string;
  x_forwarded_host : option string;
  host : option string
}.
End headers.

Module query.
Record t : Type := {
  device : option string;
  version : option string;
  model : option string;
  rssi : option string
}.
End query.

Module body.
Record t : Type := {
  version : option string;
  filename : option string;
  changelog : option string;
  mandatory : option bool
}.
End body.

(** The body of the answer of [/api/v1/firmware/check].  The up-to-date
    answer has no [changelog] and no [file_size] key. *)
Record UpdateDecision : Type := {
  update_available : bool;
  latest_version : option string;
  download_url : string;
  checksum : string;
  decision_mandatory : bool;
  decision_changelog : option string;
  file_size : option Js.number
}.

Inductive Json : Type :=
| detail (msg : string)
| decision (d : UpdateDecision)
| released (status message version : string) (size : option Js.number)
| device_list (total_devices : nat) (devices : gmap string DeviceRecord)
| server_info (firmware_versions : list string)
| healthy (timestamp : string).

(** [res.status(n).json(b)] ([res.json(b)] is status 200); [res.sendFile]
    with its two headers, when Express's [send] serves the whole file with
    status 200, and [send_answer] when it ends the response otherwise;
    [res.redirect]; and the 500 that Express answers when a synchronous
    handler throws. *)
Inductive Response : Type :=
| json (status : Z) (b : Json)
| sendFile (content_type content_disposition : string) (file : string)
| send_answer (status : Z)
| redirect (url : string)
| uncaught.

Definition status_of (r : Response) : Z :=
  match r with
  | json n _ => n
  | sendFile _ _ _ => 200
  | send_answer n => n
  | redirect _ => 302
  | uncaught => 500
  end.

(** ** Handlers

    A handler runs on the globals, records its calls to the blob store and
    either has sent the response ([inl]) or goes on with a value ([inr]). *)
Definition handler (Call A : Type) : Type :=
  State → State * list Call * (Response + A).

Section Handler.
Context {Call : Type}.

Definition ret {A} (a : A) : handler Call A :=
  λ st, (st, [], inr a).

Definition bind {A B} (m : handler Call A) (k : A → handler Call B)
  : handler Call B :=
  λ st,
    match m st with
    | (st1, tr1, inl r) => (st1, tr1, inl r)
    | (st1, tr1, inr a) =>
        match k a st1 with
        | (st2, tr2, x) => (st2, (tr1 ++ tr2)%list, x)
        end
    end.

(** [return res.status(..).json(..)]: the handler is over. *)
Definition respond {A} (r : Response) : handler Call A :=
  λ st, (st, [], inl r).

(** [if (c) return res...;] *)
Definition reject_if (c : bool) (r : Response) : handler Call unit :=
  if c then respond r else ret tt.

Definition globals : handler Call State :=
  λ st, (st, [], inr st).

Definition update (f : State → State) : handler Call unit :=
  λ st, (f st, [], inr tt).

(** A call to the blob store with its result. *)
Definition call {A} (c : Call) (result : A) : handler Call A :=
  λ st, (st, [c], inr result).

(** A call that may throw: the exception leaves the handler and Express
    answers 500. *)
Definition call_or_throw {A} (c : Call) (result : option A)
  : handler Call A :=
  λ st,
    match result with
    | Some a => (st, [c], inr a)
    | None => (st, [c], inl uncaught)
    end.

(** A handler that always answers, run on a state. *)
Definition run (h : handler Call Empty_set) (st : State)
  : State * list Call * Response :=
  match h st with
  | (st', tr, inl r) => (st', tr, r)
  | (_, _, inr e) => match e with end
  end.
End Handler.

(** stdpp's notations [x ← m; k] and [m;; k] for the handlers. *)
#[export] Instance handler_ret {Call} : MRet (handler Call) := @ret Call.
#[export] Instance handler_bind {Call} : MBind (handler Call) :=
  λ A B k m, bind m k.

(** ** Middleware: [verifyApiKey]

    [inr apiKey] stands for [req.apiKey = apiKey; next()]. *)
Definition verifyApiKey (h : headers.t) : Response + string :=
  let authorization := headers.authorization h in
  if negb (Js.truthy authorization) then
    inl (json 401 (detail "No authorization header"))
  else
    let parts := Js.split " " (default "" authorization) in
    if negb (Z.of_nat (length parts) =? 2)%Z
       || negb (String.eqb (Js.toLowerCase (default "" (Js.index parts 0)))
                  "bearer")
    then inl (json 401 (detail "Invalid authorization format"))
    else
      let apiKey := default "" (Js.index parts 1) in
      if negb (bool_decide (apiKey ∈ VALID_API_KEYS)) then
        inl (json 403 (detail "Invalid API key"))
      else inr apiKey.

(** ** The catalog: latest version and update decision *)

(** [Object.keys(AVAILABLE_FIRMWARE).sort()] *)
Definition versions (cat : gmap string FirmwareRelease) : list string :=
  Js.sort (Js.Object_keys cat).

(** [versions[versions.length - 1]] *)
Definition latestVersion (cat : gmap string FirmwareRelease)
  : option string :=
  Js.index (versions cat) (Z.of_nat (length (versions cat)) - 1).

(** [version < latestVersion] *)
Definition needsUpdate (version : string) (latest : option string) : bool :=
  Js.lt version latest.

(** The answer to a device that is up to date. *)
Definition up_to_date (latest : option string) : UpdateDecision :=
  {| update_available := false;
     latest_version := latest;
     download_url := "";
     checksum := "";
     decision_mandatory := false;
     decision_changelog := None;
     file_size := None |}.

(** [devicesDb[device] = { last_check, current_version, rssi }] *)
Definition record_device (now : string) (device version : string)
    (rssi : option string) (st : State) : State :=
  {| AVAILABLE_FIRMWARE := AVAILABLE_FIRMWARE st;
     devicesDb :=
       Js.set (devicesDb st) device
         {| last_check := now;
            current_version := version;
            rssi := if Js.truthy rssi
                    then Some (Js.parseInt (default "" rssi))
                    else None |} |}.

(** [AVAILABLE_FIRMWARE[version] = { filename, release_date, changelog,
    mandatory }], the date being
    [new Date().toISOString().split('T')[0]]. *)
Definition publish (now : string) (version filename changelog : string)
    (mandatory : bool) (st : State) : State :=
  {| AVAILABLE_FIRMWARE :=
       Js.set (AVAILABLE_FIRMWARE st) version
         {| filename := filename;
            release_date := default "" (Js.index (Js.split "T" now) 0);
            changelog := changelog;
            mandatory := mandatory |};
     devicesDb := devicesDb st |}.

Definition dquote : string := String (ascii_of_N 34) EmptyString.

(** ** [index.js]: the firmware on the local disk *)

Module IndexJs.

(** The disk under [FIRMWARE_DIR].  An oracle asked with the file name [f]
    speaks of [path.join(FIRMWARE_DIR, f)]: whether [fs.existsSync] finds
    it, the hex MD5 of what [fs.readFileSync] reads and the size that
    [fs.statSync] reports, [None] when the call throws.  [sendFile_answer]
    is what Express's [send] does with the path that [res.sendFile] hands
    over, once the path has passed its dotfile rule: [None] when it serves
    the whole file with status 200, the status otherwise (404 for a file
    that is gone or below a directory that it ignores, 500 for a directory,
    206, 304, 412 or 416 by the range and the conditions of the
    request). *)
Record Disk : Type := {
  existsSync : string → bool;
  readFileSync_md5 : string → option string;
  statSync_size : string → option Z;
  sendFile_answer : string → option Z
}.

(** [res.setHeader] throws on a value that holds a character other than
    the tab, 0x20..0x7e and 0x80..0xff. *)
Definition header_char_ok (c : ascii) : bool :=
  let n := Js.code c in
  ((n =? 9) || ((32 <=? n) && negb (n =? 127)))%N.

Fixpoint header_value_ok (value : string) : bool :=
  match value with
  | EmptyString => true
  | String c rest => header_char_ok c && header_value_ok rest
  end.
Arguments header_value_ok : simpl never.

(** The last segment of [path.join(FIRMWARE_DIR, f)] when it is a name of
    [f] itself: [path.join] resolves the segments [.] and [..]. *)
Definition last_segment (f : string) : string :=
  List.last (Js.split "/" f) "".

(** Express's [send], with the options that [res.sendFile] passes here,
    ignores a path whose last segment is a name that begins with a dot, and
    answers 404. *)
Definition is_dotfile (f : string) : bool :=
  match last_segment f with
  | String "." (String c s) => negb (String.eqb (String c s) ".")
  | _ => false
  end.

Inductive Call : Type :=
| ExistsSync (f : string)
| ReadFileSync (f : string)
| StatSync (f : string).

(** The catalog and the registry when the process starts. *)
Definition initial : State :=
  {| AVAILABLE_FIRMWARE :=
       <[ "2.2.0" := {| filename := "meril_01.ino.esp32_v2_2.bin";
                        release_date := "2026-01-15";
                        changelog := "Initial release";
                        mandatory := false |} ]>
       (<[ "2.3.0" := {| filename := "sketch_feb14a_v2_3.ino.bin";
                         release_date := "2026-02-14";
                         changelog := "Updated version";
                         mandatory := false |} ]> ∅);
     devicesDb := ∅ |}.

Definition existsFile (disk : Disk) (f : string) : handler Call bool :=
  call (ExistsSync f) (existsSync disk f).

Definition calculateMd5 (disk : Disk) (f : string) : handler Call string :=
  call_or_throw (ReadFileSync f) (readFileSync_md5 disk f).

Definition getFileSize (disk : Disk) (f : string) : handler Call Z :=
  call_or_throw (StatSync f) (statSync_size disk f).

(** [GET /api/v1/firmware/check], after the middleware. *)
Definition check (now : string) (disk : Disk) (h : headers.t) (q : query.t)
  : handler Call Empty_set :=
  let device := query.device q in
  let version := query.version q in
  reject_if (negb (Js.truthy device) || negb (Js.truthy version))
    (json 400 (detail "Missing device or version parameter"));;
  let device := default "" device in
  let version := default "" version in
  update (record_device now device version (query.rssi q));;
  st ← globals;
  let latest := latestVersion (AVAILABLE_FIRMWARE st) in
  let latestInfo := Js.get (AVAILABLE_FIRMWARE st) (Js.interpolate latest) in
  if negb (needsUpdate version latest) then
    respond (json 200 (decision (up_to_date latest)))
  else
    match latestInfo with
    | Js.Own latestInfo =>
        found ← existsFile disk (filename latestInfo);
        reject_if (negb found) (json 404 (detail "Firmware file not found"));;
        checksum ← calculateMd5 disk (filename latestInfo);
        fileSize ← getFileSize disk (filename latestInfo);
        let protocol :=
          Js.or_else (headers.x_forwarded_proto h) (Some "http") in
        let host :=
          Js.or_else (headers.x_forwarded_host h) (headers.host h) in
        let downloadUrl :=
          Js.interpolate protocol +:+ "://" +:+ Js.interpolate host
          +:+ "/api/v1/firmware/download/" +:+ Js.interpolate latest in
        respond (json 200 (decision
          {| update_available := true;
             latest_version := latest;
             download_url := downloadUrl;
             checksum := checksum;
             decision_mandatory := mandatory latestInfo;
             decision_changelog := Some (changelog latestInfo);
             file_size := Some (Js.Int fileSize) |}))
    | Js.Inherited | Js.Undefined =>
        (* [path.join(FIRMWARE_DIR, undefined)] or the read of
           [undefined.filename] throws *)
        respond uncaught
    end.

(** [GET /api/v1/firmware/download/:version], after the middleware.  The
    size is read for the log line.  The second [res.setHeader] throws when
    the file name brings a character that a header value may not hold; the
    answer of [res.sendFile] is the one of Express's [send], 404 for a
    dotfile. *)
Definition download (disk : Disk) (version : string)
  : handler Call Empty_set :=
  st ← globals;
  reject_if (negb (Js.has_truthy (AVAILABLE_FIRMWARE st) version))
    (json 404 (detail "Firmware version not found"));;
  match Js.get (AVAILABLE_FIRMWARE st) version with
  | Js.Own firmwareInfo =>
      found ← existsFile disk (filename firmwareInfo);
      reject_if (negb found) (json 404 (detail "Firmware file not found"));;
      _ ← getFileSize disk (filename firmwareInfo);
      let disposition :=
        "attachment; filename=" +:+ dquote
        +:+ filename firmwareInfo +:+ dquote in
      reject_if (negb (header_value_ok disposition)) uncaught;;
      reject_if (is_dotfile (filename firmwareInfo)) (send_answer 404);;
      match sendFile_answer disk (filename firmwareInfo) with
      | None =>
          respond (sendFile "application/octet-stream" disposition
                     (filename firmwareInfo))
      | Some status => respond (send_answer status)
      end
  | Js.Inherited | Js.Undefined =>
      (* an inherited name has no [filename]: [path.join] throws *)
      respond uncaught
  end.

(** [GET /admin/devices], after the middleware. *)
Definition devices : handler Call Empty_set :=
  st ← globals;
  respond (json 200 (device_list (length (Js.Object_keys (devicesDb st)))
                       (devicesDb st))).

(** [POST /admin/firmware/release], after the middleware. *)
Definition release (now : string) (disk : Disk) (b : body.t)
  : handler Call Empty_set :=
  let version := body.version b in
  let filename := body.filename b in
  let changelog := body.changelog b in
  let mandatory := default false (body.mandatory b) in
  reject_if (negb (Js.truthy version) || negb (Js.truthy filename)
             || negb (Js.truthy changelog))
    (json 400 (detail "Missing required fields"));;
  let version := default "" version in
  let filename := default "" filename in
  let changelog := default "" changelog in
  st ← globals;
  reject_if (Js.has_truthy (AVAILABLE_FIRMWARE st) version)
    (json 400 (detail "Version already exists"));;
  found ← existsFile disk filename;
  reject_if (negb found) (json 404 (detail "Firmware file not found"));;
  update (publish now version filename changelog mandatory);;
  respond (json 200 (released "success"
                       ("Firmware v" +:+ version +:+ " released")
                       version None)).

(** [GET /] and [GET /health] *)
Definition root : handler Call Empty_set :=
  st ← globals;
  respond (json 200 (server_info (Js.Object_keys (AVAILABLE_FIRMWARE st)))).

Definition health (now : string) : handler Call Empty_set :=
  respond (json 200 (healthy now)).

(** The routes of the application. *)
Inductive Request : Type :=
| GET_root
| GET_health
| GET_check (h : headers.t) (q : query.t)
| GET_download (h : headers.t) (version : string)
| GET_devices (h : headers.t)
| POST_release (h : headers.t) (b : body.t).

Definition authenticated (h : headers.t) (k : handler Call Empty_set)
  : handler Call Empty_set :=
  match verifyApiKey h with
  | inl r => respond r
  | inr _ => k
  end.

Definition app (now : string) (disk : Disk) (req : Request)
  : handler Call Empty_set :=
  match req with
  | GET_root => root
  | GET_health => health now
  | GET_check h q => authenticated h (check now disk h q)
  | GET_download h v => authenticated h (download disk v)
  | GET_devices h => authenticated h devices
  | POST_release h b => authenticated h (release now disk b)
  end.

(** A request together with the clock and the disk it meets.  The
    handlers are synchronous: the server handles one request after the
    other. *)
Record Arrival : Type := {
  clock : string;
  disk : Disk;
  request : Request
}.

Definition serve (a : Arrival) (st : State) : State :=
  (run (app (clock a) (disk a) (request a)) st).1.1.

Definition serve_all (l : list Arrival) (st : State) : State :=
  foldl (λ s a, serve a s) st l.

(** The headers that the middleware of a route reads; [/] and [/health]
    have no middleware. *)
Definition credentials (req : Request) : option headers.t :=
  match req with
  | GET_root | GET_health => None
  | GET_check h _ | GET_download h _ | GET_devices h | POST_release h _ =>
      Some h
  end.

End IndexJs.

(** ** The sibling server: the firmware in a public S3 bucket

    Its middleware, its catalog logic and its registry are those above; the
    blob store is reached by HTTPS.  The handlers are [async]; a request is
    modelled from its start to its answer, handled alone. *)

Module S3.

Definition S3_BUCKET : string := "esp32--firmware".
Definition S3_REGION : string := "us-east-1".
Definition S3_BASE_URL : string :=
  "https://" +:+ S3_BUCKET +:+ ".s3." +:+ S3_REGION +:+ ".amazonaws.com".

Definition getS3Url (filename : string) : string :=
  S3_BASE_URL +:+ "/" +:+ filename.

(** What [https.get(url, { method: 'HEAD' }, ...)] ends in: the response
    callback with a status and two headers, or the ['error'] event. *)
Inductive HeadOutcome : Type :=
| head_response (statusCode : Z) (content_length etag : option string)
| head_error.

(** What [https.get(url, ...)] ends in: the ['error'] event of the request,
    or a response whose body, fed to the MD5 hash chunk by chunk, ends
    (with the hex digest of what was fed) or fails. *)
Inductive Stream : Type :=
| stream_end (md5_hex : string)
| stream_error.

Inductive GetOutcome : Type :=
| get_response (statusCode : Z) (s : Stream)
| get_error.

Record Net : Type := {
  head : string → HeadOutcome;
  get : string → GetOutcome
}.

Inductive Call : Type :=
| HEAD (url : string)
| GET (url : string).

Record Metadata : Type := {
  found : bool;
  size : option Js.number;
  etag : option string
}.

(** [s.replace] of every double quote by nothing *)
Fixpoint unquote (s : string) : string :=
  match s with
  | EmptyString => EmptyString
  | String c s' =>
      if Ascii.eqb c (ascii_of_N 34) then unquote s'
      else String c (unquote s')
  end.

(** [checkS3File]: the promise always resolves; the ['error'] event
    resolves it to [{ exists: false }]. *)
Definition checkS3File (net : Net) (filename : string)
  : handler Call Metadata :=
  let url := getS3Url filename in
  call (HEAD url)
    match head net url with
    | head_response statusCode content_length etag =>
        if (statusCode =? 200)%Z then
          {| found := true;
             size := Some (Js.parseInt
                             (default "0" (Js.or_else content_length
                                             (Some "0"))));
             etag := unquote <$> etag |}
        else {| found := false; size := None; etag := None |}
    | head_error => {| found := false; size := None; etag := None |}
    end.

(** [calculateS3Md5]: [None] is the rejected promise. *)
Definition calculateS3Md5 (net : Net) (filename : string)
  : handler Call (option string) :=
  let url := getS3Url filename in
  call (GET url)
    match get net url with
    | get_response statusCode s =>
        if negb (statusCode =? 200)%Z then None
        else match s with
             | stream_end md5_hex => Some md5_hex
             | stream_error => None
             end
    | get_error => None
    end.

(** The catalog and the registry when the process starts. *)
Definition initial : State :=
  {| AVAILABLE_FIRMWARE :=
       <[ "2.2.0" := {| filename := "meril_01.ino.esp32_v2_2.bin";
                        release_date := "2026-01-15";
                        changelog := "Initial release";
                        mandatory := false |} ]>
       (<[ "2.3.0" := {| filename := "sketch_feb14a_v2_3.ino.bin";
                         release_date := "2026-02-14";
                         changelog := "Updated version";
                         mandatory := true |} ]>
       (<[ "3.1.0" := {| filename := "sketch_feb16_3_1.ino.esp32.bin";
                         release_date := "2026-02-16";
                         changelog := "New features and improvements";
                         mandatory := false |} ]> ∅));
     devicesDb := ∅ |}.

Definition internal_error : Response :=
  json 500 (detail "Internal server error").

(** [GET /api/v1/firmware/check], after the middleware.  Inside the
    [try], a rejected promise or a thrown exception ends in the [catch]:
    500. *)
Definition check (now : string) (net : Net) (q : query.t)
  : handler Call Empty_set :=
  let device := query.device q in
  let version := query.version q in
  reject_if (negb (Js.truthy device) || negb (Js.truthy version))
    (json 400 (detail "Missing device or version parameter"));;
  let device := default "" device in
  let version := default "" version in
  update (record_device now device version (query.rssi q));;
  st ← globals;
  let latest := latestVersion (AVAILABLE_FIRMWARE st) in
  let latestInfo := Js.get (AVAILABLE_FIRMWARE st) (Js.interpolate latest) in
  if negb (needsUpdate version latest) then
    respond (json 200 (decision (up_to_date latest)))
  else
    match latestInfo with
    | Js.Own latestInfo =>
        metadata ← checkS3File net (filename latestInfo);
        reject_if (negb (found metadata))
          (json 404 (detail "Firmware file not found"));;
        checksum ← calculateS3Md5 net (filename latestInfo);
        match checksum with
        | None => respond internal_error
        | Some checksum =>
            respond (json 200 (decision
              {| update_available := true;
                 latest_version := latest;
                 download_url := getS3Url (filename latestInfo);
                 checksum := checksum;
                 decision_mandatory := mandatory latestInfo;
                 decision_changelog := Some (changelog latestInfo);
                 file_size := size metadata |}))
        end
    | Js.Inherited | Js.Undefined =>
        (* not met: when [needsUpdate] holds, [latestVersion] is an own
           key of the catalog (lemma [latestInfo_own]) *)
        respond internal_error
    end.

(** [POST /admin/firmware/release], after the middleware. *)
Definition release (now : string) (net : Net) (b : body.t)
  : handler Call Empty_set :=
  let version := body.version b in
  let filename := body.filename b in
  let changelog := body.changelog b in
  let mandatory := default false (body.mandatory b) in
  reject_if (negb (Js.truthy version) || negb (Js.truthy filename)
             || negb (Js.truthy changelog))
    (json 400 (detail "Missing required fields"));;
  let version := default "" version in
  let filename := default "" filename in
  let changelog := default "" changelog in
  st ← globals;
  reject_if (Js.has_truthy (AVAILABLE_FIRMWARE st) version)
    (json 400 (detail "Version already exists"));;
  metadata ← checkS3File net filename;
  reject_if (negb (found metadata))
    (json 404 (detail "Firmware file not found in S3"));;
  update (publish now version filename changelog mandatory);;
  respond (json 200 (released "success"
                       ("Firmware v" +:+ version +:+ " released")
                       version (size metadata))).

(** The download made for the checksum fails: the request ends in
    ['error'], the status is not 200, or the body breaks off. *)
Definition download_fails (o : GetOutcome) : Prop :=
  match o with
  | get_error => True
  | get_response statusCode s => statusCode ≠ 200 ∨ s = stream_error
  end.

(** [GET /api/v1/firmware/download/:version], after the middleware.  An
    inherited property (a function, or [Object.prototype]) has no
    [filename]: the handler goes on with [undefined], which the template of
    [getS3Url] prints.  The last case is not met (the handler has answered
    404 before); there the read of [undefined.filename] would throw inside
    the [try]. *)
Definition download (net : Net) (version : string)
  : handler Call Empty_set :=
  st ← globals;
  reject_if (negb (Js.has_truthy (AVAILABLE_FIRMWARE st) version))
    (json 404 (detail "Firmware version not found"));;
  match Js.get (AVAILABLE_FIRMWARE st) version with
  | Js.Undefined => respond internal_error
  | firmwareInfo =>
      let name :=
        Js.interpolate match firmwareInfo with
                       | Js.Own info => Some (filename info)
                       | _ => None
                       end in
      metadata ← checkS3File net name;
      reject_if (negb (found metadata))
        (json 404 (detail "Firmware file not found"));;
      respond (redirect (getS3Url name))
  end.

End S3.

(** ** The ordering the specification speaks of

    [lex_lt x y]: [x] comes before [y] in the lexicographic order of the raw
    strings: [x] is a proper prefix of [y], or at the first position where
    they differ [x] has the smaller code unit. *)
Inductive lex_lt : string → string → Prop :=
| lex_prefix c t : lex_lt EmptyString (String c t)
| lex_first c d s t :
    (Js.code c < Js.code d)%N → lex_lt (String c s) (String d t)
| lex_next c s t : lex_lt s t → lex_lt (String c s) (String c t).

(** [sep] does not occur in [s]. *)
Fixpoint free_of (sep : ascii) (s : string) : Prop :=
  match s with
  | EmptyString => True
  | String c s' => c ≠ sep ∧ free_of sep s'
  end.

(** ** Sample requests, disks and networks *)

Module Sample.

Definition now : string := "2026-03-01T10:15:00.000Z".

Definition bearer (scheme key : string) : headers.t :=
  {| headers.authorization := Some (scheme +:+ " " +:+ key);
     headers.x_forwarded_proto := None;
     headers.x_forwarded_host := None;
     headers.host := Some "ota.example" |}.

Definition ask (device version : option string) : query.t :=
  {| query.device := device;
     query.version := version;
     query.model := None;
     query.rssi := Some "-67" |}.

(** The same request with the signal strength spelt by the device. *)
Definition ask_rssi (device version rssi : string) : query.t :=
  {| query.device := Some device;
     query.version := Some version;
     query.model := None;
     query.rssi := Some rssi |}.

Definition offer (version filename changelog : string) (m : option bool)
  : body.t :=
  {| body.version := Some version;
     body.filename := Some filename;
     body.changelog := Some changelog;
     body.mandatory := m |}.

(** A firmware directory without any file. *)
Definition empty_dir : IndexJs.Disk :=
  {| IndexJs.existsSync := λ _, false;
     IndexJs.readFileSync_md5 := λ _, None;
     IndexJs.statSync_size := λ _, None;
     IndexJs.sendFile_answer := λ _, Some 404 |}.

(** A firmware directory where every name is an empty file. *)
Definition full_dir : IndexJs.Disk :=
  {| IndexJs.existsSync := λ _, true;
     IndexJs.readFileSync_md5 := λ _, Some "d41d8cd98f00b204e9800998ecf8427e";
     IndexJs.statSync_size := λ _, Some 0;
     IndexJs.sendFile_answer := λ _, None |}.

(** A directory where the files are found but cannot be read. *)
Definition unreadable_dir : IndexJs.Disk :=
  {| IndexJs.existsSync := λ _, true;
     IndexJs.readFileSync_md5 := λ _, None;
     IndexJs.statSync_size := λ _, Some 0;
     IndexJs.sendFile_answer := λ _, Some 404 |}.

(** The bucket cannot be reached: every request ends in ['error']. *)
Definition unreachable : S3.Net :=
  {| S3.head := λ _, S3.head_error; S3.get := λ _, S3.get_error |}.

(** The bucket answers [HEAD] but a download breaks off. *)
Definition breaking : S3.Net :=
  {| S3.head := λ _, S3.head_response 200 (Some "1024") None;
     S3.get := λ _, S3.get_response 200 S3.stream_error |}.

(** The bucket holds every name, 1024 bytes each. *)
Definition bucket : S3.Net :=
  {| S3.head := λ _, S3.head_response 200 (Some "1024") None;
     S3.get := λ _, S3.get_response 200
                      (S3.stream_end "0f343b0931126a20f133d67c2b018a3b") |}.

(** A catalog whose latest release is mandatory. *)
Definition mandatory_latest : State :=
  publish now "3.0.0" "fw_3_0.bin" "Security fix" true IndexJs.initial.

End Sample.

(** Further sample inputs. *)
Module Scenario.

(** Every name is a file in the firmware directory: found, readable, 2048
    bytes, served whole. *)
Definition disk : IndexJs.Disk :=
  {| IndexJs.existsSync := λ _, true;
     IndexJs.readFileSync_md5 := λ _, Some "9e107d9d372bb6826bd81d3542a419d6";
     IndexJs.statSync_size := λ _, Some 2048;
     IndexJs.sendFile_answer := λ _, None |}.

Definition key : headers.t := Sample.bearer "Bearer" "test123".
Definition stranger : headers.t := Sample.bearer "Bearer" "letmein".

Definition check_in (device version : string) : IndexJs.Arrival :=
  {| IndexJs.clock := Sample.now;
     IndexJs.disk := disk;
     IndexJs.request :=
       IndexJs.GET_check key (Sample.ask (Some device) (Some version)) |}.

Definition publish_10 : body.t :=
  Sample.offer "10.0.0" "fw_10.bin" "Tenth" None.

(** The bucket answers 200 to [HEAD] without a [content-length]. *)
Definition silent_bucket : S3.Net :=
  {| S3.head := λ _, S3.head_response 200 None
                       (Some (dquote +:+ "abc123" +:+ dquote));
     S3.get := λ _, S3.get_response 200
                      (S3.stream_end "9e107d9d372bb6826bd81d3542a419d6") |}.

End Scenario.

(** Unfolds a handler run on a state down to its tests. *)
Ltac run_handler :=
  unfold run, IndexJs.app, IndexJs.authenticated,
    IndexJs.check, IndexJs.release, IndexJs.download,
    IndexJs.devices, IndexJs.root, IndexJs.health,
    IndexJs.existsFile, IndexJs.calculateMd5, IndexJs.getFileSize,
    S3.check, S3.release, S3.checkS3File, S3.calculateS3Md5,
    reject_if, update, globals, respond, call, call_or_throw;
  unfold mbind, mret, handler_bind, handler_ret, bind, ret, respond; simpl.

Ltac run_download := unfold S3.download; run_handler.

Ltac split_cases :=
  repeat (case_match; simpl in *; simplify_eq; try done).

(** * Properties *)

(** ** The string ordering *)

Section StringOrder.

Lemma compare_Lt_lex x y : String.compare x y = Lt ↔ lex_lt x y.
Proof.
  revert y. induction x as [|c x IH]; intros [|d y]; simpl.
  - split; [discriminate | inversion 1].
  - split; [constructor | done].
  - split; [discriminate | inversion 1].
  - unfold Ascii.compare.
    destruct (N.compare_spec (N_of_ascii c) (N_of_ascii d)) as [E|L|G].
    + apply (f_equal ascii_of_N) in E.
      rewrite !ascii_N_embedding in E. subst d. rewrite IH. split.
      * apply lex_next.
      * inversion 1; subst; [unfold Js.code in *; lia | done].
    + split; [intros _; by apply lex_first | done].
    + split; [discriminate|].
      inversion 1; subst; unfold Js.code in *; lia.
Qed.

Lemma string_lt_lex x y : Js.string_lt x y = true ↔ lex_lt x y.
Proof.
  unfold Js.string_lt, String.ltb. rewrite <- compare_Lt_lex.
  destruct (String.compare x y); naive_solver.
Qed.

Lemma string_le_lex x y : Js.string_le x y ↔ x = y ∨ lex_lt x y.
Proof.
  unfold Js.string_le, String.leb. rewrite <- compare_Lt_lex.
  destruct (String.compare x y) eqn:E.
  - apply String.compare_eq_iff in E. naive_solver.
  - naive_solver.
  - split; [done|]. intros [->|?]; [|done].
    pose proof (String.compare_antisym y y) as A.
    rewrite E in A. discriminate A.
Qed.

Lemma lex_lt_irrefl x : ¬ lex_lt x x.
Proof.
  induction x as [|c x IH]; inversion 1; subst; [|done].
  unfold Js.code in *; lia.
Qed.

Lemma lex_lt_trans x y z : lex_lt x y → lex_lt y z → lex_lt x z.
Proof.
  intros Hxy. revert z.
  induction Hxy as [c t|c d s t Hcd|c s t Hst IH]; intros z Hyz;
    inversion Hyz; subst.
  - constructor.
  - constructor.
  - apply lex_first. lia.
  - by apply lex_first.
  - by apply lex_first.
  - apply lex_next. by apply IH.
Qed.

Lemma lex_lt_asym x y : lex_lt x y → ¬ lex_lt y x.
Proof. intros H1 H2. exact (lex_lt_irrefl x (lex_lt_trans _ _ _ H1 H2)). Qed.

Lemma lex_trichotomy x y : lex_lt x y ∨ x = y ∨ lex_lt y x.
Proof.
  destruct (String.compare x y) eqn:E.
  - right; left. by apply String.compare_eq_iff.
  - left. by apply compare_Lt_lex.
  - right; right. apply compare_Lt_lex.
    rewrite String.compare_antisym, E. done.
Qed.

Lemma string_le_refl : Reflexive Js.string_le.
Proof. intros x. apply string_le_lex. by left. Qed.

Lemma string_le_trans : Transitive Js.string_le.
Proof.
  intros x y z. rewrite !string_le_lex.
  intros [->|Hxy] [->|Hyz]; eauto using lex_lt_trans.
Qed.

Lemma string_le_total : Total Js.string_le.
Proof.
  intros x y. rewrite !string_le_lex.
  destruct (lex_trichotomy x y) as [?|[?|?]]; eauto.
Qed.

Lemma string_le_antisym : AntiSymm (=) Js.string_le.
Proof.
  intros x y. rewrite !string_le_lex.
  intros [->|Hxy] [?|Hyx]; try done.
  by destruct (lex_lt_asym x y).
Qed.

(** The version numbers do not count: ten sorts before two. *)
Example ten_before_two : lex_lt "10.0.0" "2.0.0".
Proof. apply lex_first. by vm_compute. Qed.

Example nine_after_three : ¬ lex_lt "9.0.0" "3.1.0".
Proof. apply lex_lt_asym, lex_first. by vm_compute. Qed.

End StringOrder.

(** ** Sorting the keys *)

Section Versions.
Context {V : Type}.
Implicit Types (o : gmap string V) (l : list string).

Lemma elem_of_Object_keys o k : k ∈ Js.Object_keys o ↔ is_Some (o !! k).
Proof.
  unfold Js.Object_keys. rewrite list_elem_of_fmap. split.
  - intros [[k' v] [-> Hin]]. apply elem_of_map_to_list in Hin. by exists v.
  - intros [v Hv]. exists (k, v). split; [done|].
    by apply elem_of_map_to_list.
Qed.

Lemma sort_sorted l : StronglySorted Js.string_le (Js.sort l).
Proof.
  apply (@StronglySorted_merge_sort _ Js.string_le _
           string_le_trans string_le_total).
Qed.

Lemma sort_permutation l : Js.sort l ≡ₚ l.
Proof. apply merge_sort_Permutation. Qed.

(** The order in which the keys are listed does not matter once they are
    sorted: any listing of the same keys sorts to the same array. *)
Lemma sort_any_order l1 l2 : l1 ≡ₚ l2 → Js.sort l1 = Js.sort l2.
Proof.
  intros E.
  apply (@StronglySorted_unique _ Js.string_le string_le_antisym);
    [apply sort_sorted..|].
  by rewrite !sort_permutation.
Qed.

Lemma index_last {A} (l : list A) :
  Js.index l (Z.of_nat (length l) - 1) = last l.
Proof.
  unfold Js.index. rewrite last_lookup. destruct l as [|x l]; [done|].
  simpl length. case_match eqn:E; [apply Z.ltb_lt in E; lia|].
  f_equal. lia.
Qed.

Lemma last_of_sorted l x :
  StronglySorted Js.string_le l → last l = Some x →
  ∀ y, y ∈ l → Js.string_le y x.
Proof.
  intros Hs Hl y Hy. apply last_Some in Hl as [l' ->].
  apply elem_of_app in Hy as [Hy|Hy].
  - eapply StronglySorted_app_1_elem_of; [done..|]. by left.
  - apply list_elem_of_singleton in Hy as ->. apply string_le_refl.
Qed.
End Versions.

(** ** The latest version *)

Section Catalog.
Implicit Types (cat : gmap string FirmwareRelease).

Lemma elem_of_versions cat k : k ∈ versions cat ↔ is_Some (cat !! k).
Proof.
  unfold versions. rewrite sort_permutation. apply elem_of_Object_keys.
Qed.

Lemma latestVersion_last cat : latestVersion cat = last (versions cat).
Proof. apply index_last. Qed.

Lemma latestVersion_is_key cat v :
  latestVersion cat = Some v → is_Some (cat !! v).
Proof.
  rewrite latestVersion_last. intros H.
  by apply elem_of_versions, last_Some_elem_of.
Qed.

Lemma latestVersion_upper cat v k :
  latestVersion cat = Some v → is_Some (cat !! k) → Js.string_le k v.
Proof.
  rewrite latestVersion_last. intros H Hk.
  eapply last_of_sorted; [apply sort_sorted | done |].
  by apply elem_of_versions.
Qed.

Lemma latestVersion_nonempty cat : cat ≠ ∅ → is_Some (latestVersion cat).
Proof.
  intros Hne. rewrite latestVersion_last. apply last_is_Some.
  intros E. apply Hne, map_to_list_empty_iff.
  assert (Js.Object_keys cat = []) as Hk.
  { apply Permutation_nil_r. rewrite <- E. unfold versions.
    by rewrite sort_permutation. }
  unfold Js.Object_keys in Hk. by apply fmap_nil_inv in Hk.
Qed.

(** Any listing [l] of the keys, whatever its order, sorts to [versions]:
    the order of [Object.keys] plays no part. *)
Lemma versions_any_listing cat l :
  NoDup l → (∀ k, k ∈ l ↔ is_Some (cat !! k)) → Js.sort l = versions cat.
Proof.
  intros Hnd Hl. apply sort_any_order, NoDup_Permutation; [done| |].
  - apply NoDup_fst_map_to_list.
  - intros k. by rewrite Hl, elem_of_Object_keys.
Qed.

Lemma latestVersion_keys_only cat cat' :
  dom cat' = dom cat → latestVersion cat' = latestVersion cat.
Proof.
  intros Hd. unfold latestVersion.
  assert (versions cat' = versions cat) as ->; [|done].
  apply versions_any_listing; [apply NoDup_fst_map_to_list|].
  intros k. by rewrite elem_of_Object_keys, <- !elem_of_dom, Hd.
Qed.

(** When there is a latest version, the catalog holds its record. *)
Lemma latestInfo_own cat v :
  latestVersion cat = Some v →
  ∃ info, cat !! v = Some info
          ∧ Js.get cat (Js.interpolate (Some v)) = Js.Own info.
Proof.
  intros [info Hi]%latestVersion_is_key. exists info. split; [done|].
  unfold Js.get. simpl. by rewrite Hi.
Qed.

(** C2: for every non-empty catalog, the latest version is the greatest
    key in the lexicographic order of the raw strings: it is a key, every
    other key is lexicographically smaller, and it is the same for every
    catalog with these keys, however often it is asked. *)
Theorem latest_is_lexicographic_maximum cat :
  cat ≠ ∅ →
  ∃ v, latestVersion cat = Some v
       ∧ is_Some (cat !! v)
       ∧ (∀ k, is_Some (cat !! k) → k = v ∨ lex_lt k v)
       ∧ (∀ cat', dom cat' = dom cat → latestVersion cat' = Some v).
Proof.
  intros [v Hv]%latestVersion_nonempty. exists v.
  split_and!; [done|by eapply latestVersion_is_key| |].
  - intros k Hk. apply string_le_lex. by eapply latestVersion_upper.
  - intros cat' Hd. by rewrite (latestVersion_keys_only cat cat').
Qed.

(** The catalog of the specification's scenario, with any records. *)
Example latest_of_three (r1 r2 r3 : FirmwareRelease) :
  latestVersion (<["2.2.0" := r1]> (<["2.3.0" := r2]> (<["3.1.0" := r3]> ∅)))
  = Some "3.1.0".
Proof. by vm_compute. Qed.

Example sort_ten_two : Js.sort ["2.0.0"; "10.0.0"] = ["10.0.0"; "2.0.0"].
Proof. by vm_compute. Qed.

Lemma latest_is_lexicographic_maximum_witness :
  AVAILABLE_FIRMWARE S3.initial ≠ ∅
  ∧ latestVersion (AVAILABLE_FIRMWARE S3.initial) = Some "3.1.0"
  ∧ (∀ k, is_Some (AVAILABLE_FIRMWARE S3.initial !! k)
          → k = "3.1.0" ∨ lex_lt k "3.1.0")
  ∧ (∀ cat', dom cat' = dom (AVAILABLE_FIRMWARE S3.initial)
             → latestVersion cat' = Some "3.1.0").
Proof.
  assert (AVAILABLE_FIRMWARE S3.initial ≠ ∅) as Hne
    by apply insert_non_empty.
  destruct (latest_is_lexicographic_maximum
              (AVAILABLE_FIRMWARE S3.initial) Hne)
    as (v & Hv & _ & Hmax & Hdom).
  assert (v = "3.1.0") as -> by (vm_compute in Hv; congruence).
  split_and!; [exact Hne | exact Hv | exact Hmax | exact Hdom].
Defined.
End Catalog.

(** ** Running the handlers *)

Lemma truthy_Some s : s ≠ "" → Js.truthy (Some s) = true.
Proof. by destruct s. Qed.

(** ** The update decision ([index.js]) *)

Section Check.
Import IndexJs.
Variables (now : string) (disk : Disk) (h : headers.t) (q : query.t).
Variable st : State.

Local Abbreviation recorded :=
  (record_device now (default "" (query.device q))
     (default "" (query.version q)) (query.rssi q) st).
Local Abbreviation latest := (latestVersion (AVAILABLE_FIRMWARE st)).

Lemma check_missing :
  Js.truthy (query.device q) && Js.truthy (query.version q) = false →
  run (check now disk h q) st
  = (st, [], json 400 (detail "Missing device or version parameter")).
Proof.
  intros H. run_handler.
  by destruct (Js.truthy (query.device q)), (Js.truthy (query.version q)).
Qed.

Lemma check_up_to_date :
  Js.truthy (query.device q) = true → Js.truthy (query.version q) = true →
  needsUpdate (default "" (query.version q)) latest = false →
  run (check now disk h q) st
  = (recorded, [], json 200 (decision (up_to_date latest))).
Proof.
  intros Hd Hv Hn. run_handler. rewrite Hd, Hv. simpl.
  by rewrite Hn.
Qed.

(** Whatever the answer, a check with both parameters leaves the state
    with the device recorded. *)
Lemma check_state :
  Js.truthy (query.device q) = true → Js.truthy (query.version q) = true →
  (run (check now disk h q) st).1.1 = recorded.
Proof.
  intros Hd Hv. run_handler. rewrite Hd, Hv. simpl.
  repeat (case_match; simpl in *; simplify_eq; try done).
Qed.

Lemma check_update_needed :
  Js.truthy (query.device q) = true → Js.truthy (query.version q) = true →
  needsUpdate (default "" (query.version q)) latest = true →
  ∀ d, (run (check now disk h q) st).2 = json 200 (decision d) →
       update_available d = true.
Proof.
  intros Hd Hv Hn d. run_handler. rewrite Hd, Hv. simpl.
  rewrite Hn. simpl.
  repeat (case_match; simpl in *; simplify_eq; try done). by intros [= <-].
Qed.
End Check.

(** C1: for every check request with device and version present, the
    update decision is the comparison of the reported version with the
    latest one in the lexicographic order of the raw strings.  When the
    reported version is not lexicographically smaller, the answer is the
    up-to-date one.  When it is smaller, the handler goes on to the file of
    the latest release: 404 when the disk does not find it, and, when it is
    found and can be read and measured, the answer with [update_available]
    set, the latest version, its checksum, size, changelog and mandatory
    flag; no answer with [update_available] set is given otherwise.  A
    device reporting 9.0.0 against a catalog whose greatest key is 3.1.0
    is told that no update is available. *)
Theorem check_decision_is_lexicographic
    now disk h q st device version latest :
  query.device q = Some device → device ≠ "" →
  query.version q = Some version → version ≠ "" →
  latestVersion (AVAILABLE_FIRMWARE st) = Some latest →
  let r := (run (IndexJs.check now disk h q) st).2 in
  (needsUpdate version (Some latest) = true ↔ lex_lt version latest)
  ∧ (¬ lex_lt version latest →
     r = json 200 (decision (up_to_date (Some latest))))
  ∧ (lex_lt version latest →
     ∀ d, r = json 200 (decision d) → update_available d = true)
  ∧ (version = "9.0.0" → latest = "3.1.0" →
     ∃ d, r = json 200 (decision d) ∧ update_available d = false
          ∧ latest_version d = Some "3.1.0")
  ∧ (lex_lt version latest →
     ∀ info,
       AVAILABLE_FIRMWARE st !! latest = Some info →
       (IndexJs.existsSync disk (filename info) = false →
        r = json 404 (detail "Firmware file not found"))
       ∧ (∀ sum n,
            IndexJs.existsSync disk (filename info) = true →
            IndexJs.readFileSync_md5 disk (filename info) = Some sum →
            IndexJs.statSync_size disk (filename info) = Some n →
            r = json 200 (decision
                  {| update_available := true;
                     latest_version := Some latest;
                     download_url :=
                       Js.interpolate
                         (Js.or_else (headers.x_forwarded_proto h)
                            (Some "http"))
                       +:+ "://"
                       +:+ Js.interpolate
                             (Js.or_else (headers.x_forwarded_host h)
                                (headers.host h))
                       +:+ "/api/v1/firmware/download/" +:+ latest;
                     checksum := sum;
                     decision_mandatory := mandatory info;
                     decision_changelog := Some (changelog info);
                     file_size := Some (Js.Int n) |}))).
Proof.
  intros Hd Hdne Hv Hvne Hl r.
  assert (Js.truthy (query.device q) = true) as Td
    by (rewrite Hd; by apply truthy_Some).
  assert (Js.truthy (query.version q) = true) as Tv
    by (rewrite Hv; by apply truthy_Some).
  assert (needsUpdate version (Some latest) = true ↔ lex_lt version latest)
    as Hn by apply string_lt_lex.
  assert (¬ lex_lt version latest →
          r = json 200 (decision (up_to_date (Some latest)))) as Hup.
  { intros Hlt. subst r. rewrite check_up_to_date; try done.
    - simpl. by rewrite Hl.
    - apply not_true_is_false. rewrite Hv, Hl. intros Ht.
      by apply Hlt, Hn. }
  split_and!; [done|done| | |].
  - intros Hlt. subst r. apply check_update_needed; try done.
    rewrite Hv, Hl. by apply Hn.
  - intros -> ->. eexists. split; [apply Hup, nine_after_three|done].
  - intros Hlt info Hi.
    assert (needsUpdate (default "" (query.version q)) (Some latest) = true)
      as Hnu by (rewrite Hv; by apply Hn).
    assert (Js.get (AVAILABLE_FIRMWARE st) latest = Js.Own info) as Hg
      by (unfold Js.get; by rewrite Hi).
    subst r. split.
    + intros He. run_handler. rewrite Td, Tv. simpl.
      rewrite Hl, Hnu. simpl. rewrite Hg. simpl. by rewrite He.
    + intros sum n He Hr Hs. run_handler. rewrite Td, Tv. simpl.
      rewrite Hl, Hnu. simpl. rewrite Hg. simpl. by rewrite He, Hr, Hs.
Qed.

(** The catalog with 3.1.0 as its greatest key: the device that reports
    9.0.0 is up to date, the device that reports 2.2.0 is offered 3.1.0. *)
Lemma check_decision_is_lexicographic_witness :
  let st := S3.initial in
  let answer version :=
    (run (IndexJs.check Sample.now Sample.full_dir
            (Sample.bearer "Bearer" "test123")
            (Sample.ask (Some "D1") (Some version))) st).2 in
  (∃ d, answer "9.0.0" = json 200 (decision d)
        ∧ update_available d = false
        ∧ latest_version d = Some "3.1.0")
  ∧ answer "2.2.0"
    = json 200 (decision
        {| update_available := true;
           latest_version := Some "3.1.0";
           download_url :=
             "http://ota.example/api/v1/firmware/download/3.1.0";
           checksum := "d41d8cd98f00b204e9800998ecf8427e";
           decision_mandatory := false;
           decision_changelog := Some "New features and improvements";
           file_size := Some (Js.Int 0) |}).
Proof.
  intros st answer. split.
  - apply (check_decision_is_lexicographic Sample.now Sample.full_dir
             (Sample.bearer "Bearer" "test123")
             (Sample.ask (Some "D1") (Some "9.0.0")) st
             "D1" "9.0.0" "3.1.0");
      first [reflexivity | discriminate | by vm_compute].
  - assert (lex_lt "2.2.0" "3.1.0") as Hlt
      by (apply lex_first; by vm_compute).
    apply (check_decision_is_lexicographic Sample.now Sample.full_dir
             (Sample.bearer "Bearer" "test123")
             (Sample.ask (Some "D1") (Some "2.2.0")) st
             "D1" "2.2.0" "3.1.0"
             eq_refl ltac:(discriminate) eq_refl ltac:(discriminate)
             ltac:(by vm_compute))
      with (info := {| filename := "sketch_feb16_3_1.ino.esp32.bin";
                       release_date := "2026-02-16";
                       changelog := "New features and improvements";
                       mandatory := false |});
      first [exact Hlt | reflexivity | by vm_compute].
Defined.

(** C5: for every check request with device and version present whose
    reported version is not lexicographically smaller than the latest one,
    the answer is exactly [update_available: false] with the latest version,
    an empty download URL, an empty checksum and [mandatory: false],
    whatever the mandatory flag of the latest release, and the handler makes
    no call to the blob store: no existence check, no read, no size
    query. *)
Theorem check_up_to_date_answer now disk h q st device version latest :
  query.device q = Some device → device ≠ "" →
  query.version q = Some version → version ≠ "" →
  latestVersion (AVAILABLE_FIRMWARE st) = Some latest →
  ¬ lex_lt version latest →
  ∃ st',
    run (IndexJs.check now disk h q) st
    = (st', [],
       json 200 (decision {| update_available := false;
                             latest_version := Some latest;
                             download_url := "";
                             checksum := "";
                             decision_mandatory := false;
                             decision_changelog := None;
                             file_size := None |})).
Proof.
  intros Hd Hdne Hv Hvne Hl Hlt. eexists.
  rewrite check_up_to_date.
  - rewrite Hl. reflexivity.
  - rewrite Hd. by apply truthy_Some.
  - rewrite Hv. by apply truthy_Some.
  - apply not_true_is_false. rewrite Hv, Hl. intros Ht.
    by apply Hlt, string_lt_lex.
Qed.

Lemma check_up_to_date_answer_witness :
  (∃ info, AVAILABLE_FIRMWARE Sample.mandatory_latest !! "3.0.0" = Some info
           ∧ mandatory info = true)
  ∧ ∃ st',
      run (IndexJs.check Sample.now Sample.empty_dir
             (Sample.bearer "Bearer" "test123")
             (Sample.ask (Some "D1") (Some "3.0.0")))
        Sample.mandatory_latest
      = (st', [],
         json 200 (decision {| update_available := false;
                               latest_version := Some "3.0.0";
                               download_url := "";
                               checksum := "";
                               decision_mandatory := false;
                               decision_changelog := None;
                               file_size := None |})).
Proof.
  split.
  - eexists. split; by vm_compute.
  - apply (check_up_to_date_answer Sample.now Sample.empty_dir
             (Sample.bearer "Bearer" "test123")
             (Sample.ask (Some "D1") (Some "3.0.0"))
             Sample.mandatory_latest "D1" "3.0.0" "3.0.0");
      first [reflexivity | discriminate | by vm_compute
            | apply lex_lt_irrefl].
Defined.

(** ** The device registry *)

Lemma set_lookup_eq {V} (o : gmap string V) k v :
  k ≠ "__proto__" → Js.set o k v !! k = Some v.
Proof.
  intros Hk. unfold Js.set.
  destruct (String.eqb_spec k "__proto__"); [done|]. apply lookup_insert_eq.
Qed.

Lemma set_lookup_ne {V} (o : gmap string V) k k' v :
  k ≠ k' → Js.set o k v !! k' = o !! k'.
Proof.
  intros Hk. unfold Js.set.
  destruct (String.eqb_spec k "__proto__"); [done|].
  by apply lookup_insert_ne.
Qed.

(** C7, as the code has it: a check request with device and version present
    (and a device name other than [__proto__]) overwrites the record of the
    device with the current timestamp, the reported version and the parsed
    rssi when one is given, whatever the outcome of the request (up to date,
    update, artifact missing, unreadable artifact); the other records and
    the catalog are untouched.  The parsed rssi is the number [parseInt]
    returns, a double: an rssi of 9007199254740993 is recorded as
    9007199254740992, and an rssi of [-0] as the negative zero.  A request
    that lacks the device or the version is answered 400 and records
    nothing. *)
Theorem check_records_device now disk h q st :
  let st' := (run (IndexJs.check now disk h q) st).1.1 in
  let r := (run (IndexJs.check now disk h q) st).2 in
  (Js.truthy (query.device q) && Js.truthy (query.version q) = false →
   st' = st ∧ status_of r = 400)
  ∧ (∀ device version,
       query.device q = Some device → device ≠ "" →
       query.version q = Some version → version ≠ "" →
       device ≠ "__proto__" →
       devicesDb st' !! device
       = Some {| last_check := now;
                 current_version := version;
                 rssi := match query.rssi q with
                         | Some (String c s) =>
                             Some (Js.parseInt (String c s))
                         | Some EmptyString | None => None
                         end |}
       ∧ (∀ other, other ≠ device →
                   devicesDb st' !! other = devicesDb st !! other)
       ∧ AVAILABLE_FIRMWARE st' = AVAILABLE_FIRMWARE st
       ∧ (query.rssi q = Some "9007199254740993" →
          devicesDb st' !! device
          = Some {| last_check := now;
                    current_version := version;
                    rssi := Some (Js.Int 9007199254740992) |})
       ∧ (query.rssi q = Some "-0" →
          devicesDb st' !! device
          = Some {| last_check := now;
                    current_version := version;
                    rssi := Some Js.NegZero |})).
Proof.
  intros st' r. split.
  - intros Hm. subst st' r. by rewrite check_missing.
  - intros device version Hd Hdne Hv Hvne Hp. subst st'.
    rewrite check_state; [|rewrite ?Hd, ?Hv; by apply truthy_Some..].
    rewrite Hd, Hv. simpl. split_and!; [|  |done| |].
    + rewrite set_lookup_eq by done. do 2 f_equal.
      by destruct (query.rssi q) as [[|c s]|].
    + intros other Ho. by rewrite set_lookup_ne.
    + intros ->. rewrite set_lookup_eq by done. by vm_compute.
    + intros ->. rewrite set_lookup_eq by done. by vm_compute.
Qed.

(** A request without version: 400, and the device is not recorded. *)
Lemma check_without_version_records_nothing :
  let out := run (IndexJs.check Sample.now Sample.full_dir
                    (Sample.bearer "Bearer" "test123")
                    (Sample.ask (Some "D1") None)) IndexJs.initial in
  out.2 = json 400 (detail "Missing device or version parameter")
  ∧ devicesDb out.1.1 !! "D1" = None.
Proof. by vm_compute. Qed.

(** The artifact is missing: 404, and the device is recorded all the
    same; a signal strength beyond 2^53 is recorded rounded. *)
Lemma check_records_device_witness :
  let out := run (IndexJs.check Sample.now Sample.empty_dir
                    (Sample.bearer "Bearer" "test123")
                    (Sample.ask (Some "D1") (Some "2.2.0")))
               IndexJs.initial in
  let out' := run (IndexJs.check Sample.now Sample.empty_dir
                     (Sample.bearer "Bearer" "test123")
                     (Sample.ask_rssi "D1" "2.2.0" "9007199254740993"))
                IndexJs.initial in
  (out.2 = json 404 (detail "Firmware file not found")
   ∧ devicesDb out.1.1 !! "D1"
     = Some {| last_check := Sample.now;
               current_version := "2.2.0";
               rssi := Some (Js.Int (-67)) |})
  ∧ devicesDb out'.1.1 !! "D1"
    = Some {| last_check := Sample.now;
              current_version := "2.2.0";
              rssi := Some (Js.Int 9007199254740992) |}.
Proof.
  intros out out'. split; [split; [by vm_compute|]|].
  - apply (proj2 (check_records_device Sample.now Sample.empty_dir
                    (Sample.bearer "Bearer" "test123")
                    (Sample.ask (Some "D1") (Some "2.2.0")) IndexJs.initial)
             "D1" "2.2.0");
      first [reflexivity | discriminate].
  - apply (proj2 (check_records_device Sample.now Sample.empty_dir
                    (Sample.bearer "Bearer" "test123")
                    (Sample.ask_rssi "D1" "2.2.0" "9007199254740993")
                    IndexJs.initial)
             "D1" "2.2.0");
      first [reflexivity | discriminate].
Defined.

(** [parseInt] returns a double: integers beyond 2^53 are rounded to the
    nearest one, ties to the even significand; the sign of a zero is kept;
    2^1024 and beyond is infinite; no digit gives [NaN]. *)
Example parseInt_is_a_double :
  Js.parseInt "9007199254740993" = Js.Int 9007199254740992
  ∧ Js.parseInt "9007199254740995" = Js.Int 9007199254740996
  ∧ Js.parseInt "-9007199254740993" = Js.Int (-9007199254740992)
  ∧ Js.parseInt "0x20000000000001" = Js.Int 9007199254740992
  ∧ Js.parseInt "-0" = Js.NegZero
  ∧ Js.parseInt "-67dBm" = Js.Int (-67)
  ∧ Js.parseInt "  42" = Js.Int 42
  ∧ Js.parseInt "dBm" = Js.NaN
  ∧ Js.parseInt "-" = Js.NaN.
Proof. by vm_compute. Qed.

(** ** Release ([index.js]) *)

Lemma has_truthy_spec {V} (o : gmap string V) k :
  Js.has_truthy o k = true ↔ is_Some (o !! k) ∨ Js.inherited k = true.
Proof.
  unfold Js.has_truthy, Js.get.
  destruct (o !! k) as [v|] eqn:E.
  - split; [intros _; left; by exists v | done].
  - destruct (Js.inherited k); split; auto.
    + intros [[? [=]]|[=]].
Qed.

Lemma has_truthy_false {V} (o : gmap string V) k :
  Js.has_truthy o k = false ↔ o !! k = None ∧ Js.inherited k = false.
Proof.
  unfold Js.has_truthy, Js.get.
  destruct (o !! k) as [v|] eqn:E.
  - split; [done | by intros [[=] _]].
  - destruct (Js.inherited k); split; auto; by intros [_ [=]].
Qed.

Lemma get_own {V} (o : gmap string V) k v :
  o !! k = Some v → Js.get o k = Js.Own v.
Proof. unfold Js.get. by intros ->. Qed.

Lemma not_inherited_proto k : Js.inherited k = false → k ≠ "__proto__".
Proof. intros H ->. by vm_compute in H. Qed.

Section Release.
Import IndexJs.
Variables (now : string) (disk : Disk) (b : body.t) (st : State).

Local Abbreviation complete :=
  (Js.truthy (body.version b) && Js.truthy (body.filename b)
   && Js.truthy (body.changelog b)).
Local Abbreviation version := (default "" (body.version b)).
Local Abbreviation file := (default "" (body.filename b)).
Local Abbreviation published :=
  (publish now version file (default "" (body.changelog b))
     (default false (body.mandatory b)) st).

Lemma release_missing :
  complete = false →
  run (release now disk b) st
  = (st, [], json 400 (detail "Missing required fields")).
Proof.
  intros H. run_handler.
  by destruct (Js.truthy (body.version b)), (Js.truthy (body.filename b)),
    (Js.truthy (body.changelog b)).
Qed.

Lemma release_duplicate :
  complete = true →
  Js.has_truthy (AVAILABLE_FIRMWARE st) version = true →
  run (release now disk b) st
  = (st, [], json 400 (detail "Version already exists")).
Proof.
  intros Hc Hk. apply andb_true_iff in Hc as [Hc Hl].
  apply andb_true_iff in Hc as [Hv Hf]. run_handler.
  rewrite Hv, Hf, Hl. simpl. by rewrite Hk.
Qed.

Lemma release_artifact_missing :
  complete = true →
  Js.has_truthy (AVAILABLE_FIRMWARE st) version = false →
  existsSync disk file = false →
  run (release now disk b) st
  = (st, [ExistsSync file], json 404 (detail "Firmware file not found")).
Proof.
  intros Hc Hk He. apply andb_true_iff in Hc as [Hc Hl].
  apply andb_true_iff in Hc as [Hv Hf]. run_handler.
  rewrite Hv, Hf, Hl. simpl. by rewrite Hk, He.
Qed.

Lemma release_accepted :
  complete = true →
  Js.has_truthy (AVAILABLE_FIRMWARE st) version = false →
  existsSync disk file = true →
  run (release now disk b) st
  = (published, [ExistsSync file],
     json 200 (released "success" ("Firmware v" +:+ version +:+ " released")
                 version None)).
Proof.
  intros Hc Hk He. apply andb_true_iff in Hc as [Hc Hl].
  apply andb_true_iff in Hc as [Hv Hf]. run_handler.
  rewrite Hv, Hf, Hl. simpl. by rewrite Hk, He.
Qed.

(** The four outcomes, by the three tests in their order. *)
Lemma release_cases :
  run (release now disk b) st
  = if negb complete then
      (st, [], json 400 (detail "Missing required fields"))
    else if Js.has_truthy (AVAILABLE_FIRMWARE st) version then
      (st, [], json 400 (detail "Version already exists"))
    else if negb (existsSync disk file) then
      (st, [ExistsSync file], json 404 (detail "Firmware file not found"))
    else
      (published, [ExistsSync file],
       json 200 (released "success"
                   ("Firmware v" +:+ version +:+ " released")
                   version None)).
Proof.
  destruct complete eqn:Hc; simpl; [|by apply release_missing].
  destruct (Js.has_truthy _ version) eqn:Hk; [by apply release_duplicate|].
  destruct (existsSync disk file) eqn:He; simpl.
  - by apply release_accepted.
  - by apply release_artifact_missing.
Qed.
End Release.

(** A release never touches an entry that is in the catalog. *)
Lemma publish_keeps now v f c m st k r :
  Js.has_truthy (AVAILABLE_FIRMWARE st) v = false →
  AVAILABLE_FIRMWARE st !! k = Some r →
  AVAILABLE_FIRMWARE (publish now v f c m st) !! k = Some r.
Proof.
  intros [Hv _]%has_truthy_false Hk. simpl.
  rewrite set_lookup_ne; [done|]. intros ->. congruence.
Qed.

Lemma publish_lookup now v f c m st :
  Js.inherited v = false →
  AVAILABLE_FIRMWARE (publish now v f c m st) !! v
  = Some {| filename := f;
            release_date := default "" (Js.index (Js.split "T" now) 0);
            changelog := c;
            mandatory := m |}.
Proof. intros H%not_inherited_proto. simpl. by apply set_lookup_eq. Qed.

(** For a version that is not a name inherited from [Object.prototype], the
    three checks are made in their order and the first that fails decides:
    a missing field, then a version that is already a key, then a file the
    disk does not have. *)
Lemma release_validation_order now disk b st :
  Js.inherited (default "" (body.version b)) = false →
  let r := (run (IndexJs.release now disk b) st).2 in
  let complete := Js.truthy (body.version b) && Js.truthy (body.filename b)
                  && Js.truthy (body.changelog b) in
  (complete = false → r = json 400 (detail "Missing required fields"))
  ∧ (complete = true →
     is_Some (AVAILABLE_FIRMWARE st !! default "" (body.version b)) →
     r = json 400 (detail "Version already exists"))
  ∧ (complete = true →
     AVAILABLE_FIRMWARE st !! default "" (body.version b) = None →
     IndexJs.existsSync disk (default "" (body.filename b)) = false →
     r = json 404 (detail "Firmware file not found"))
  ∧ (complete = true →
     AVAILABLE_FIRMWARE st !! default "" (body.version b) = None →
     IndexJs.existsSync disk (default "" (body.filename b)) = true →
     status_of r = 200).
Proof.
  intros Hi r complete. subst r. split_and!.
  - intros Hc. by rewrite release_missing.
  - intros Hc Hk. rewrite release_duplicate; try done.
    apply has_truthy_spec. by left.
  - intros Hc Hk He. rewrite release_artifact_missing; try done.
    by apply has_truthy_false.
  - intros Hc Hk He. rewrite release_accepted; try done.
    by apply has_truthy_false.
Qed.

(** C3, where the code departs from it: [constructor] is not a key of the
    catalog and the file is on the disk, so the three checks of the claim
    pass; the handler answers that the version already exists, because the
    lookup [AVAILABLE_FIRMWARE[version]] finds the property that every
    object inherits. *)
Theorem release_of_inherited_name_is_refused :
  let b := Sample.offer "constructor" "fw_3_0.bin" "New build" None in
  AVAILABLE_FIRMWARE IndexJs.initial !! "constructor" = None
  ∧ IndexJs.existsSync Sample.full_dir "fw_3_0.bin" = true
  ∧ run (IndexJs.release Sample.now Sample.full_dir b) IndexJs.initial
    = (IndexJs.initial, [], json 400 (detail "Version already exists")).
Proof. by vm_compute. Qed.

(** C4, as the code has it: a release request that fails leaves the whole
    state, and so the catalog, as it was; the attempted version is a key
    afterwards only if it was one before, and it is never one after the
    artifact was found missing (404). *)
Theorem failed_release_keeps_catalog now disk b st :
  let out := run (IndexJs.release now disk b) st in
  status_of out.2 ≠ 200 →
  out.1.1 = st
  ∧ (∀ v, body.version b = Some v →
          AVAILABLE_FIRMWARE st !! v = None →
          AVAILABLE_FIRMWARE out.1.1 !! v = None)
  ∧ (∀ v, body.version b = Some v → status_of out.2 = 404 →
          AVAILABLE_FIRMWARE out.1.1 !! v = None).
Proof.
  intros out. subst out. rewrite release_cases.
  destruct (negb _) eqn:Hc; simpl; [by auto|].
  destruct (Js.has_truthy _ _) eqn:Hk; simpl; [by auto|].
  destruct (negb (IndexJs.existsSync _ _)) eqn:He; simpl; [|done].
  intros _. split_and!; [done|by auto|].
  intros v Hv _. rewrite Hv in Hk. by apply has_truthy_false in Hk as [? _].
Qed.

(** The second release of 2.2.0 fails, and 2.2.0 is a key afterwards. *)
Lemma duplicate_release_stays_in_catalog :
  let out := run (IndexJs.release Sample.now Sample.full_dir
                    (Sample.offer "2.2.0" "fw_3_0.bin" "Again" (Some true)))
               IndexJs.initial in
  out.2 = json 400 (detail "Version already exists")
  ∧ is_Some (AVAILABLE_FIRMWARE out.1.1 !! "2.2.0").
Proof. split; [by vm_compute|]. eexists. by vm_compute. Qed.

Lemma failed_release_keeps_catalog_witness :
  let out := run (IndexJs.release Sample.now Sample.empty_dir
                    (Sample.offer "3.0.0" "fw_3_0.bin" "New build" None))
               IndexJs.initial in
  out.2 = json 404 (detail "Firmware file not found")
  ∧ out.1.1 = IndexJs.initial
  ∧ AVAILABLE_FIRMWARE out.1.1 !! "3.0.0" = None.
Proof.
  intros out.
  assert (status_of out.2 ≠ 200) as Hf by (by vm_compute).
  destruct (failed_release_keeps_catalog Sample.now Sample.empty_dir
              (Sample.offer "3.0.0" "fw_3_0.bin" "New build" None)
              IndexJs.initial Hf) as (Hst & _ & H404).
  split_and!; [by vm_compute|exact Hst|].
  apply H404; [reflexivity|by vm_compute].
Defined.

(** ** The catalog only grows *)

Section Grows.
Import IndexJs.

Lemma run_authenticated h k st :
  run (authenticated h k) st
  = match verifyApiKey h with
    | inl r => (st, [], r)
    | inr _ => run k st
    end.
Proof. unfold authenticated. by destruct (verifyApiKey h). Qed.

Lemma check_catalog now disk h q st :
  AVAILABLE_FIRMWARE (run (check now disk h q) st).1.1
  = AVAILABLE_FIRMWARE st.
Proof.
  destruct (Js.truthy (query.device q)) eqn:Hd;
    [destruct (Js.truthy (query.version q)) eqn:Hv|].
  - by rewrite check_state.
  - rewrite check_missing; [done|]. by rewrite Hd, Hv.
  - rewrite check_missing; [done|]. by rewrite Hd.
Qed.

Lemma download_state disk v st : (run (download disk v) st).1.1 = st.
Proof. run_handler. split_cases. Qed.

Lemma release_keeps now disk b st k r :
  AVAILABLE_FIRMWARE st !! k = Some r →
  AVAILABLE_FIRMWARE (run (release now disk b) st).1.1 !! k = Some r.
Proof.
  intros Hk. rewrite release_cases.
  destruct (negb _); [done|].
  destruct (Js.has_truthy _ _) eqn:Ht; [done|].
  destruct (negb (existsSync _ _)); [done|].
  by apply publish_keeps.
Qed.

(** No route removes or changes an entry of the catalog. *)
Lemma app_keeps now disk req st k r :
  AVAILABLE_FIRMWARE st !! k = Some r →
  AVAILABLE_FIRMWARE (run (app now disk req) st).1.1 !! k = Some r.
Proof.
  intros Hk.
  destruct req as [| |h q|h v|h|h b]; simpl; try done;
    rewrite run_authenticated; destruct (verifyApiKey h); try done.
  - by rewrite check_catalog.
  - by rewrite download_state.
  - by apply release_keeps.
Qed.

Lemma serve_all_keeps later st k r :
  AVAILABLE_FIRMWARE st !! k = Some r →
  AVAILABLE_FIRMWARE (serve_all later st) !! k = Some r.
Proof.
  revert st. induction later as [|a later IH]; intros st Hk; [done|].
  simpl. apply IH. unfold serve. by apply app_keeps.
Qed.

(** Once a version is published, every later release request for that
    version is refused as a duplicate, whatever else it carries. *)
Lemma second_publish_is_duplicate now disk b st later now' disk' b' :
  status_of (run (release now disk b) st).2 = 200 →
  body.version b' = body.version b →
  Js.truthy (body.filename b') = true →
  Js.truthy (body.changelog b') = true →
  (run (release now' disk' b')
     (serve_all later (run (release now disk b) st).1.1)).2
  = json 400 (detail "Version already exists").
Proof.
  intros Hok Hv Hf Hc. revert Hok. rewrite release_cases.
  destruct (negb _) eqn:Hall; [done|].
  destruct (Js.has_truthy _ _) eqn:Ht; [done|].
  destruct (negb (existsSync _ _)); [done|]. intros _. simpl.
  apply negb_false_iff in Hall.
  apply andb_true_iff in Hall as [Hall _].
  apply andb_true_iff in Hall as [Tv _].
  apply has_truthy_false in Ht as [_ Hi].
  rewrite release_duplicate; [done| |].
  - by rewrite Hv, Tv, Hf, Hc.
  - rewrite Hv. apply has_truthy_spec. left. eexists.
    apply serve_all_keeps. by apply publish_lookup.
Qed.

End Grows.

(** C6: when a version that is not a key of the catalog is published with
    success, reading the version gives the published record, with the
    file name, the changelog and the mandatory flag of the request; and
    after any further sequence of requests (checks, downloads, listings,
    releases, with any clock and any disk) reading the version still gives
    that record. *)
Theorem published_release_is_kept now disk b st v f c :
  body.version b = Some v →
  body.filename b = Some f →
  body.changelog b = Some c →
  AVAILABLE_FIRMWARE st !! v = None →
  status_of (run (IndexJs.release now disk b) st).2 = 200 →
  let st1 := (run (IndexJs.release now disk b) st).1.1 in
  let published :=
    {| filename := f;
       release_date := default "" (Js.index (Js.split "T" now) 0);
       changelog := c;
       mandatory := default false (body.mandatory b) |} in
  Js.get (AVAILABLE_FIRMWARE st1) v = Js.Own published
  ∧ ∀ later : list IndexJs.Arrival,
      Js.get (AVAILABLE_FIRMWARE (IndexJs.serve_all later st1)) v
      = Js.Own published.
Proof.
  intros Hv Hf Hc Hfresh Hok st1 published.
  assert (AVAILABLE_FIRMWARE st1 !! v = Some published) as Hp.
  { subst st1. revert Hok. rewrite release_cases.
    destruct (negb _); [done|].
    destruct (Js.has_truthy _ _) eqn:Ht; [done|].
    destruct (negb (IndexJs.existsSync _ _)); [done|]. intros _.
    rewrite Hv, Hf, Hc in *. simpl default.
    apply has_truthy_false in Ht as [_ Hi]. by apply publish_lookup. }
  split; [by apply get_own|].
  intros later. by apply get_own, serve_all_keeps.
Qed.

Lemma published_release_is_kept_witness :
  let b := Sample.offer "3.0.0" "fw_3_0.bin" "New build" (Some true) in
  let st1 := (run (IndexJs.release Sample.now Sample.full_dir b)
                IndexJs.initial).1.1 in
  let published :=
    {| filename := "fw_3_0.bin";
       release_date := "2026-03-01";
       changelog := "New build";
       mandatory := true |} in
  Js.get (AVAILABLE_FIRMWARE st1) "3.0.0" = Js.Own published
  ∧ ∀ later : list IndexJs.Arrival,
      Js.get (AVAILABLE_FIRMWARE (IndexJs.serve_all later st1)) "3.0.0"
      = Js.Own published.
Proof.
  intros b st1 published.
  apply (published_release_is_kept Sample.now Sample.full_dir b
           IndexJs.initial "3.0.0" "fw_3_0.bin" "New build");
    first [reflexivity | by vm_compute].
Defined.

(** ** Splitting at a separator *)

Lemma split_free sep s : free_of sep s → Js.split sep s = [s].
Proof.
  induction s as [|c s IH]; [done|]. intros [Hc Hs]. simpl.
  destruct (Ascii.eqb_spec c sep); [done|]. by rewrite IH.
Qed.

Lemma split_at sep s t :
  free_of sep s → Js.split sep (s +:+ String sep t) = s :: Js.split sep t.
Proof.
  induction s as [|c s IH]; simpl.
  - intros _. by rewrite Ascii.eqb_refl.
  - intros [Hc Hs]. destruct (Ascii.eqb_spec c sep); [done|]. by rewrite IH.
Qed.

(** The date of an ISO timestamp is what stands before its [T]. *)
Lemma date_of_timestamp date time :
  free_of "T" date →
  default "" (Js.index (Js.split "T" (date +:+ "T" +:+ time)) 0) = date.
Proof.
  intros H. change ("T" +:+ time) with (String "T" time).
  by rewrite split_at.
Qed.

(** ** Release: what is inserted and what is answered *)

Section ReleaseS3.
Import S3.
Variables (now : string) (net : Net) (b : body.t) (st : State).

Local Abbreviation complete :=
  (Js.truthy (body.version b) && Js.truthy (body.filename b)
   && Js.truthy (body.changelog b)).
Local Abbreviation version := (default "" (body.version b)).
Local Abbreviation url := (getS3Url (default "" (body.filename b))).

Lemma s3_release_artifact_missing :
  complete = true →
  Js.has_truthy (AVAILABLE_FIRMWARE st) version = false →
  (∀ cl et, head net url ≠ head_response 200 cl et) →
  run (release now net b) st
  = (st, [HEAD url], json 404 (detail "Firmware file not found in S3")).
Proof.
  intros Hc Hk Hh. apply andb_true_iff in Hc as [Hc Hl].
  apply andb_true_iff in Hc as [Hv Hf]. run_handler.
  rewrite Hv, Hf, Hl. simpl. rewrite Hk.
  destruct (head net url) as [code cl et|] eqn:E; [|done].
  destruct (Z.eqb_spec code 200) as [->|]; [|done]. by destruct (Hh cl et).
Qed.

Lemma s3_release_accepted cl et :
  complete = true →
  Js.has_truthy (AVAILABLE_FIRMWARE st) version = false →
  head net url = head_response 200 cl et →
  run (release now net b) st
  = (publish now version (default "" (body.filename b))
       (default "" (body.changelog b)) (default false (body.mandatory b)) st,
     [HEAD url],
     json 200 (released "success" ("Firmware v" +:+ version +:+ " released")
                 version
                 (Some (Js.parseInt
                          (default "0" (Js.or_else cl (Some "0"))))))).
Proof.
  intros Hc Hk Hh. apply andb_true_iff in Hc as [Hc Hl].
  apply andb_true_iff in Hc as [Hv Hf]. run_handler.
  rewrite Hv, Hf, Hl. simpl. by rewrite Hk, Hh.
Qed.
End ReleaseS3.

(** C8, as the code has it: a release request that passes the three checks
    (for a version that is no name inherited from [Object.prototype])
    inserts the record with the date of the server clock as release date,
    and is answered with an acceptance.  The acceptance of the S3 server
    carries the size that the bucket reported for the artifact; the
    acceptance of [index.js] carries no size. *)
Theorem accepted_release now b st v f c date time :
  body.version b = Some v → v ≠ "" →
  body.filename b = Some f → f ≠ "" →
  body.changelog b = Some c → c ≠ "" →
  AVAILABLE_FIRMWARE st !! v = None → Js.inherited v = false →
  now = date +:+ "T" +:+ time → free_of "T" date →
  let inserted :=
    {| filename := f;
       release_date := date;
       changelog := c;
       mandatory := default false (body.mandatory b) |} in
  let accepted size :=
    json 200 (released "success" ("Firmware v" +:+ v +:+ " released") v size) in
  (∀ disk, IndexJs.existsSync disk f = true →
     let out := run (IndexJs.release now disk b) st in
     out.2 = accepted None
     ∧ AVAILABLE_FIRMWARE out.1.1 !! v = Some inserted)
  ∧ (∀ net content_length etag,
       S3.head net (S3.getS3Url f)
       = S3.head_response 200 content_length etag →
       let out := run (S3.release now net b) st in
       out.2 = accepted (Some (Js.parseInt
                                 (default "0" (Js.or_else content_length
                                                 (Some "0")))))
       ∧ AVAILABLE_FIRMWARE out.1.1 !! v = Some inserted).
Proof.
  intros Hv Hvne Hf Hfne Hc Hcne Hfresh Hi Hnow Hdate inserted accepted.
  assert (Js.truthy (body.version b) && Js.truthy (body.filename b)
          && Js.truthy (body.changelog b) = true) as Hall.
  { rewrite Hv, Hf, Hc. by rewrite !truthy_Some. }
  assert (Js.has_truthy (AVAILABLE_FIRMWARE st) (default "" (body.version b))
          = false) as Hk.
  { rewrite Hv. by apply has_truthy_false. }
  split.
  - intros disk He out. subst out.
    rewrite release_accepted; [|done|done|by rewrite Hf].
    rewrite Hv, Hf, Hc. simpl fst; simpl snd; simpl default.
    split; [done|]. rewrite publish_lookup by done.
    subst now. by rewrite date_of_timestamp.
  - intros net cl et Hh out. subst out.
    rewrite (s3_release_accepted now net b st cl et);
      [|done|done|by rewrite Hf].
    rewrite Hv, Hf, Hc. simpl fst; simpl snd; simpl default.
    split; [done|]. rewrite publish_lookup by done.
    subst now. by rewrite date_of_timestamp.
Qed.

(** The acceptance of [index.js] has three keys: no size among them. *)
Lemma disk_release_reports_no_size :
  (run (IndexJs.release Sample.now Sample.full_dir
          (Sample.offer "3.0.0" "fw_3_0.bin" "New build" None))
     IndexJs.initial).2
  = json 200 (released "success" "Firmware v3.0.0 released" "3.0.0" None).
Proof. by vm_compute. Qed.

Lemma accepted_release_witness :
  let b := Sample.offer "3.2.0" "fw_3_2.bin" "New build" None in
  let inserted :=
    {| filename := "fw_3_2.bin";
       release_date := "2026-03-01";
       changelog := "New build";
       mandatory := false |} in
  (let out := run (IndexJs.release Sample.now Sample.full_dir b) S3.initial in
   out.2 = json 200 (released "success" "Firmware v3.2.0 released"
                       "3.2.0" None)
   ∧ AVAILABLE_FIRMWARE out.1.1 !! "3.2.0" = Some inserted)
  ∧ (let out := run (S3.release Sample.now Sample.bucket b) S3.initial in
     out.2 = json 200 (released "success" "Firmware v3.2.0 released"
                         "3.2.0" (Some (Js.Int 1024)))
     ∧ AVAILABLE_FIRMWARE out.1.1 !! "3.2.0" = Some inserted).
Proof.
  intros b inserted.
  pose proof (accepted_release Sample.now b S3.initial
                "3.2.0" "fw_3_2.bin" "New build" "2026-03-01" "10:15:00.000Z"
                eq_refl ltac:(discriminate) eq_refl ltac:(discriminate)
                eq_refl ltac:(discriminate) ltac:(by vm_compute) eq_refl
                eq_refl ltac:(by vm_compute)) as [Hdisk Hnet].
  split.
  - apply (Hdisk Sample.full_dir). reflexivity.
  - apply (Hnet Sample.bucket (Some "1024") None). reflexivity.
Defined.

(** ** Failures of the blob store *)

(** The S3 server decides in the same way, and asks the bucket nothing when
    the device is up to date. *)
Lemma s3_check_up_to_date now net q st :
  Js.truthy (query.device q) = true →
  Js.truthy (query.version q) = true →
  needsUpdate (default "" (query.version q))
    (latestVersion (AVAILABLE_FIRMWARE st)) = false →
  run (S3.check now net q) st
  = (record_device now (default "" (query.device q))
       (default "" (query.version q)) (query.rssi q) st,
     [],
     json 200 (decision (up_to_date (latestVersion (AVAILABLE_FIRMWARE st))))).
Proof.
  intros Hd Hv Hn. run_handler. rewrite Hd, Hv. simpl. by rewrite Hn.
Qed.

Section CheckS3.
Import S3.
Variables (now : string) (net : Net) (q : query.t) (st : State).
Variables (latest : string) (info : FirmwareRelease).
Hypothesis Hdevice : Js.truthy (query.device q) = true.
Hypothesis Hversion : Js.truthy (query.version q) = true.
Hypothesis Hlatest : latestVersion (AVAILABLE_FIRMWARE st) = Some latest.
Hypothesis Hinfo : AVAILABLE_FIRMWARE st !! latest = Some info.
Hypothesis Hneeds :
  needsUpdate (default "" (query.version q)) (Some latest) = true.

Local Abbreviation recorded :=
  (record_device now (default "" (query.device q))
     (default "" (query.version q)) (query.rssi q) st).
Local Abbreviation url := (getS3Url (filename info)).

Lemma s3_check_head_error :
  head net url = head_error →
  run (check now net q) st
  = (recorded, [HEAD url], json 404 (detail "Firmware file not found")).
Proof.
  intros Hh. run_handler. rewrite Hdevice, Hversion. simpl.
  rewrite Hlatest, Hneeds. simpl. rewrite (get_own _ _ _ Hinfo).
  simpl. by rewrite Hh.
Qed.

Lemma s3_check_download_fails cl et :
  head net url = head_response 200 cl et →
  download_fails (get net url) →
  run (check now net q) st
  = (recorded, [HEAD url; GET url], internal_error).
Proof.
  intros Hh Hg. run_handler. rewrite Hdevice, Hversion. simpl.
  rewrite Hlatest, Hneeds. simpl. rewrite (get_own _ _ _ Hinfo).
  simpl. rewrite Hh. simpl.
  destruct (get net url) as [code s|]; simpl in *; [|done].
  destruct (Z.eqb_spec code 200) as [E|E]; simpl; [subst code|done].
  destruct Hg as [Hg|Hg]; [done|]. by subst s.
Qed.
End CheckS3.

Lemma check_unreadable now disk h q st latest info :
  Js.truthy (query.device q) = true →
  Js.truthy (query.version q) = true →
  latestVersion (AVAILABLE_FIRMWARE st) = Some latest →
  AVAILABLE_FIRMWARE st !! latest = Some info →
  needsUpdate (default "" (query.version q)) (Some latest) = true →
  IndexJs.existsSync disk (filename info) = true →
  IndexJs.readFileSync_md5 disk (filename info) = None →
  run (IndexJs.check now disk h q) st
  = (record_device now (default "" (query.device q))
       (default "" (query.version q)) (query.rssi q) st,
     [IndexJs.ExistsSync (filename info);
      IndexJs.ReadFileSync (filename info)],
     uncaught).
Proof.
  intros Hd Hv Hl Hi Hn He Hr. run_handler. rewrite Hd, Hv. simpl.
  rewrite Hl, Hn. simpl. rewrite (get_own _ _ _ Hi). simpl.
  by rewrite He, Hr.
Qed.

(** C9, as the code has it: no call to the blob store is repeated.  When
    the download made for the checksum fails (request error, status other
    than 200, broken body; on the disk, an exception of the read), the check
    request fails with status 500.  When the existence check fails (the
    HEAD request ends in an error), the failure is taken for an absent
    artifact: the check request and the release request are answered
    404. *)
Theorem blob_store_failure_outcomes now st :
  (∀ net q device version latest info,
     query.device q = Some device → device ≠ "" →
     query.version q = Some version → version ≠ "" →
     latestVersion (AVAILABLE_FIRMWARE st) = Some latest →
     AVAILABLE_FIRMWARE st !! latest = Some info →
     lex_lt version latest →
     let url := S3.getS3Url (filename info) in
     let out := run (S3.check now net q) st in
     (S3.head net url = S3.head_error →
      out.1.2 = [S3.HEAD url]
      ∧ out.2 = json 404 (detail "Firmware file not found"))
     ∧ (∀ content_length etag,
          S3.head net url = S3.head_response 200 content_length etag →
          S3.download_fails (S3.get net url) →
          out.1.2 = [S3.HEAD url; S3.GET url]
          ∧ out.2 = json 500 (detail "Internal server error")))
  ∧ (∀ net b v f c,
       body.version b = Some v → v ≠ "" →
       body.filename b = Some f → f ≠ "" →
       body.changelog b = Some c → c ≠ "" →
       Js.has_truthy (AVAILABLE_FIRMWARE st) v = false →
       S3.head net (S3.getS3Url f) = S3.head_error →
       run (S3.release now net b) st
       = (st, [S3.HEAD (S3.getS3Url f)],
          json 404 (detail "Firmware file not found in S3")))
  ∧ (∀ disk h q device version latest info,
       query.device q = Some device → device ≠ "" →
       query.version q = Some version → version ≠ "" →
       latestVersion (AVAILABLE_FIRMWARE st) = Some latest →
       AVAILABLE_FIRMWARE st !! latest = Some info →
       lex_lt version latest →
       IndexJs.existsSync disk (filename info) = true →
       IndexJs.readFileSync_md5 disk (filename info) = None →
       let out := run (IndexJs.check now disk h q) st in
       out.1.2 = [IndexJs.ExistsSync (filename info);
                  IndexJs.ReadFileSync (filename info)]
       ∧ status_of out.2 = 500).
Proof.
  split_and!.
  - intros net q device version latest info Hd Hdne Hv Hvne Hl Hi Hlt url out.
    assert (Js.truthy (query.device q) = true) as Td
      by (rewrite Hd; by apply truthy_Some).
    assert (Js.truthy (query.version q) = true) as Tv
      by (rewrite Hv; by apply truthy_Some).
    assert (needsUpdate (default "" (query.version q)) (Some latest) = true)
      as Hn by (rewrite Hv; by apply string_lt_lex).
    subst out url. split.
    + intros Hh.
      by rewrite (s3_check_head_error now net q st latest info).
    + intros cl et Hh Hg.
      by rewrite (s3_check_download_fails now net q st latest info
                    Td Tv Hl Hi Hn cl et).
  - intros net b v f c Hv Hvne Hf Hfne Hc Hcne Hk Hh.
    rewrite s3_release_artifact_missing.
    + by rewrite Hf.
    + rewrite Hv, Hf, Hc. by rewrite !truthy_Some.
    + by rewrite Hv.
    + intros cl et. rewrite Hf. simpl. by rewrite Hh.
  - intros disk h q device version latest info
      Hd Hdne Hv Hvne Hl Hi Hlt He Hr out. subst out.
    rewrite (check_unreadable now disk h q st latest info); try done.
    + rewrite Hd. by apply truthy_Some.
    + rewrite Hv. by apply truthy_Some.
    + rewrite Hv. by apply string_lt_lex.
Qed.

(** The bucket cannot be reached, and the device is told that the firmware
    file does not exist. *)
Lemma unreachable_bucket_is_answered_404 :
  let out := run (S3.check Sample.now Sample.unreachable
                    (Sample.ask (Some "D1") (Some "2.2.0"))) S3.initial in
  S3.head Sample.unreachable
    (S3.getS3Url "sketch_feb16_3_1.ino.esp32.bin") = S3.head_error
  ∧ out.1.2 = [S3.HEAD (S3.getS3Url "sketch_feb16_3_1.ino.esp32.bin")]
  ∧ out.2 = json 404 (detail "Firmware file not found")
  ∧ status_of out.2 ≠ 500.
Proof. by vm_compute. Qed.

Lemma blob_store_failure_outcomes_witness :
  let url := S3.getS3Url "sketch_feb16_3_1.ino.esp32.bin" in
  let q := Sample.ask (Some "D1") (Some "2.2.0") in
  (let out := run (S3.check Sample.now Sample.unreachable q) S3.initial in
   out.1.2 = [S3.HEAD url]
   ∧ out.2 = json 404 (detail "Firmware file not found"))
  ∧ (let out := run (S3.check Sample.now Sample.breaking q) S3.initial in
     out.1.2 = [S3.HEAD url; S3.GET url]
     ∧ out.2 = json 500 (detail "Internal server error"))
  ∧ run (S3.release Sample.now Sample.unreachable
           (Sample.offer "3.2.0" "fw_3_2.bin" "New build" None)) S3.initial
    = (S3.initial, [S3.HEAD (S3.getS3Url "fw_3_2.bin")],
       json 404 (detail "Firmware file not found in S3"))
  ∧ (let out := run (IndexJs.check Sample.now Sample.unreadable_dir
                       (Sample.bearer "Bearer" "test123") q) S3.initial in
     out.1.2 = [IndexJs.ExistsSync "sketch_feb16_3_1.ino.esp32.bin";
                IndexJs.ReadFileSync "sketch_feb16_3_1.ino.esp32.bin"]
     ∧ status_of out.2 = 500).
Proof.
  intros url q.
  destruct (blob_store_failure_outcomes Sample.now S3.initial)
    as (Hcheck & Hrelease & Hdisk).
  assert (lex_lt "2.2.0" "3.1.0") as Hlt by (apply lex_first; by vm_compute).
  split_and!.
  - apply (Hcheck Sample.unreachable q "D1" "2.2.0" "3.1.0"
             {| filename := "sketch_feb16_3_1.ino.esp32.bin";
                release_date := "2026-02-16";
                changelog := "New features and improvements";
                mandatory := false |});
      first [reflexivity | discriminate | exact Hlt | by vm_compute].
  - eapply (Hcheck Sample.breaking q "D1" "2.2.0" "3.1.0"
              {| filename := "sketch_feb16_3_1.ino.esp32.bin";
                 release_date := "2026-02-16";
                 changelog := "New features and improvements";
                 mandatory := false |});
      first [reflexivity | discriminate | exact Hlt | by vm_compute
            | by right].
  - apply (Hrelease Sample.unreachable _ "3.2.0" "fw_3_2.bin" "New build");
      first [reflexivity | discriminate | by vm_compute].
  - apply (Hdisk Sample.unreadable_dir (Sample.bearer "Bearer" "test123") q
             "D1" "2.2.0" "3.1.0"
             {| filename := "sketch_feb16_3_1.ino.esp32.bin";
                release_date := "2026-02-16";
                changelog := "New features and improvements";
                mandatory := false |});
      first [reflexivity | discriminate | exact Hlt | by vm_compute].
Defined.

(** ** The bearer-key middleware *)

Lemma lower_char_space c : Js.lower_char c = " "%char → c = " "%char.
Proof.
  destruct c as [[] [] [] [] [] [] [] []]; vm_compute; congruence.
Qed.

Lemma toLowerCase_free s :
  free_of " " (Js.toLowerCase s) → free_of " " s.
Proof.
  induction s as [|c s IH]; [done|]. simpl. intros [Hc Hs].
  split; [|by apply IH]. intros ->. by apply Hc.
Qed.

Lemma valid_key_free key : key ∈ VALID_API_KEYS → free_of " " key.
Proof.
  unfold VALID_API_KEYS.
  intros [->%elem_of_singleton| ->%elem_of_singleton]%elem_of_union;
    by vm_compute.
Qed.

Lemma split_scheme_token scheme token :
  free_of " " scheme → free_of " " token →
  Js.split " " (scheme +:+ " " +:+ token) = [scheme; token].
Proof.
  intros Hs Ht. change (" " +:+ token) with (String " " token).
  by rewrite split_at, split_free.
Qed.

Lemma split_nonempty sep s : Js.split sep s ≠ [].
Proof.
  destruct s as [|c s]; simpl; [done|].
  destruct (Ascii.eqb c sep); [done|]. by destruct (Js.split sep s).
Qed.

Lemma split_one sep s b :
  Js.split sep s = [b] → s = b ∧ free_of sep b.
Proof.
  revert b. induction s as [|c s IH]; intros b; simpl.
  - by intros [= <-].
  - destruct (Ascii.eqb_spec c sep) as [->|Hc].
    + intros [= _ H]. by destruct (split_nonempty sep s).
    + destruct (Js.split sep s) as [|p ps] eqn:E;
        [by destruct (split_nonempty sep s)|].
      intros [= <- ->]. destruct (IH p eq_refl) as [-> Hp]. by split.
Qed.

Lemma split_two sep s a b :
  Js.split sep s = [a; b] →
  s = a +:+ String sep b ∧ free_of sep a ∧ free_of sep b.
Proof.
  revert a. induction s as [|c s IH]; intros a; simpl; [done|].
  destruct (Ascii.eqb_spec c sep) as [->|Hc].
  - intros [= <- H]. apply split_one in H as [-> Hb]. by split.
  - destruct (Js.split sep s) as [|p ps] eqn:E; [done|].
    intros [= <- ->]. destruct (IH p eq_refl) as (-> & Hp & Hb).
    by split_and!.
Qed.

(** What [verifyApiKey] saw when it reached one of its last two tests. *)
Lemma verifyApiKey_two_parts h :
  (∃ r, verifyApiKey h = inl r ∧ status_of r = 401)
  ∨ ∃ scheme token,
      headers.authorization h = Some (scheme +:+ " " +:+ token)
      ∧ Js.toLowerCase scheme = "bearer"
      ∧ free_of " " token
      ∧ verifyApiKey h
        = if bool_decide (token ∈ VALID_API_KEYS) then inr token
          else inl (json 403 (detail "Invalid API key")).
Proof.
  unfold verifyApiKey.
  destruct (headers.authorization h) as [a|]; [|left; eexists; by split].
  destruct (Js.truthy (Some a)); [|left; eexists; by split].
  change (default "" (Some a)) with a. cbn [negb].
  destruct (Z.eqb_spec (Z.of_nat (length (Js.split " " a))) 2) as [Hn|Hn];
    [|left; eexists; by split].
  destruct (Js.split " " a) as [|x [|y [|z parts]]] eqn:E;
    try (simpl in Hn; lia).
  simpl.
  destruct (String.eqb_spec (Js.toLowerCase x) "bearer") as [Hx|Hx]; simpl;
    [|left; eexists; by split].
  right. exists x, y. apply split_two in E as (-> & _ & Hy).
  split_and!; try done. by destruct (bool_decide _).
Qed.

(** C10: the scheme keyword is matched whatever its letter case, and
    nothing but that keyword and a key of the allow-set passes.  A header
    made of a scheme, one space and a token is accepted, with the token as
    API key, whenever the scheme in lower case is [bearer] and the token is
    one of the valid keys; a header that does not split at its spaces into
    exactly two parts is rejected with status 401.  Conversely a request is
    accepted only with a valid key behind a scheme that reads [bearer] in
    lower case; any other scheme is answered 401, and a key outside the
    allow-set behind the right scheme is answered 403. *)
Theorem bearer_scheme_is_case_insensitive h :
  (∀ scheme token,
     headers.authorization h = Some (scheme +:+ " " +:+ token) →
     Js.toLowerCase scheme = "bearer" →
     token ∈ VALID_API_KEYS →
     verifyApiKey h = inr token)
  ∧ (∀ a,
       headers.authorization h = Some a →
       length (Js.split " " a) ≠ 2%nat →
       ∃ msg, verifyApiKey h = inl (json 401 (detail msg)))
  ∧ (∀ key,
       verifyApiKey h = inr key →
       key ∈ VALID_API_KEYS
       ∧ ∃ scheme,
           headers.authorization h = Some (scheme +:+ " " +:+ key)
           ∧ Js.toLowerCase scheme = "bearer")
  ∧ (∀ scheme token,
       headers.authorization h = Some (scheme +:+ " " +:+ token) →
       free_of " " scheme → free_of " " token →
       Js.toLowerCase scheme ≠ "bearer" →
       verifyApiKey h = inl (json 401 (detail "Invalid authorization format")))
  ∧ (∀ scheme token,
       headers.authorization h = Some (scheme +:+ " " +:+ token) →
       Js.toLowerCase scheme = "bearer" →
       free_of " " token →
       token ∉ VALID_API_KEYS →
       verifyApiKey h = inl (json 403 (detail "Invalid API key"))).
Proof.
  assert (∀ scheme token,
            Js.truthy (Some (scheme +:+ " " +:+ token)) = true) as Htruthy.
  { intros scheme token. by destruct scheme. }
  assert (∀ scheme, Js.toLowerCase scheme = "bearer" → free_of " " scheme)
    as Hfree.
  { intros scheme Hs. apply toLowerCase_free. rewrite Hs. by vm_compute. }
  split_and!.
  - intros scheme token Ha Hs Ht. unfold verifyApiKey.
    rewrite Ha, Htruthy. simpl default.
    rewrite split_scheme_token by auto using valid_key_free.
    simpl. rewrite Hs. simpl. by rewrite bool_decide_eq_true_2.
  - intros a Ha Hn. unfold verifyApiKey. rewrite Ha.
    destruct (Js.truthy (Some a)); simpl; [|by eexists].
    destruct (Z.eqb_spec (Z.of_nat (length (Js.split " " a))) 2) as [E|E];
      [lia|]. simpl. by eexists.
  - intros key Hk.
    destruct (verifyApiKey_two_parts h)
      as [(r & Hr & _)|(scheme & token & Ha & Hs & _ & Hv)]; [congruence|].
    rewrite Hv in Hk. case_bool_decide as Hin; [|done].
    injection Hk as <-. eauto.
  - intros scheme token Ha Fs Ft Hs. unfold verifyApiKey.
    rewrite Ha, Htruthy. simpl default.
    rewrite split_scheme_token by done. simpl.
    by destruct (String.eqb_spec (Js.toLowerCase scheme) "bearer").
  - intros scheme token Ha Hs Ft Hout. unfold verifyApiKey.
    rewrite Ha, Htruthy. simpl default.
    rewrite split_scheme_token by auto.
    simpl. rewrite Hs. simpl. by rewrite bool_decide_eq_false_2.
Qed.

(** A mixed-case scheme with a valid key passes; a doubled space, another
    scheme and an unknown key do not. *)
Lemma bearer_scheme_is_case_insensitive_witness :
  verifyApiKey (Sample.bearer "BeArEr" "prod456") = inr "prod456"
  ∧ (∃ msg, verifyApiKey (Sample.bearer "Bearer" " test123")
            = inl (json 401 (detail msg)))
  ∧ verifyApiKey (Sample.bearer "Basic" "test123")
    = inl (json 401 (detail "Invalid authorization format"))
  ∧ verifyApiKey (Sample.bearer "bearer" "letmein")
    = inl (json 403 (detail "Invalid API key")).
Proof.
  split_and!.
  - apply (proj1 (bearer_scheme_is_case_insensitive
                    (Sample.bearer "BeArEr" "prod456")) "BeArEr" "prod456");
      [reflexivity | reflexivity | by vm_compute].
  - apply (proj1 (proj2 (bearer_scheme_is_case_insensitive
                    (Sample.bearer "Bearer" " test123"))) "Bearer  test123");
      [reflexivity | by vm_compute].
  - apply (proj1 (proj2 (proj2 (proj2 (bearer_scheme_is_case_insensitive
                    (Sample.bearer "Basic" "test123")))))
             "Basic" "test123");
      [reflexivity | by vm_compute | by vm_compute | by vm_compute].
  - apply (proj2 (proj2 (proj2 (proj2 (bearer_scheme_is_case_insensitive
                    (Sample.bearer "bearer" "letmein")))))
             "bearer" "letmein");
      [reflexivity | reflexivity | by vm_compute | by vm_compute].
Defined.

(** * Further properties of the code *)

(** ** The middleware, read backwards *)

(** X1: a request passes the middleware only with a key of the allow-set,
    presented as a scheme that reads [bearer] in lower case, one space and
    the key. *)
Theorem accepted_key_is_valid h key :
  verifyApiKey h = inr key →
  key ∈ VALID_API_KEYS
  ∧ ∃ scheme,
      headers.authorization h = Some (scheme +:+ " " +:+ key)
      ∧ Js.toLowerCase scheme = "bearer".
Proof.
  intros Hk.
  destruct (verifyApiKey_two_parts h)
    as [(r & Hr & _)|(scheme & token & Ha & Hs & _ & Hv)]; [congruence|].
  rewrite Hv in Hk. case_bool_decide as Hin; [|done].
  injection Hk as <-. eauto.
Qed.

Lemma accepted_key_is_valid_witness :
  "prod456" ∈ VALID_API_KEYS
  ∧ ∃ scheme,
      headers.authorization (Sample.bearer "bearer" "prod456")
      = Some (scheme +:+ " " +:+ "prod456")
      ∧ Js.toLowerCase scheme = "bearer".
Proof.
  apply (accepted_key_is_valid (Sample.bearer "bearer" "prod456") "prod456").
  by vm_compute.
Defined.

(** X2: the answer is 403 exactly for a header of two parts whose scheme
    reads [bearer] and whose second part, possibly empty, is not in the
    allow-set. *)
Theorem forbidden_iff_unknown_key h :
  verifyApiKey h = inl (json 403 (detail "Invalid API key"))
  ↔ ∃ scheme token,
      headers.authorization h = Some (scheme +:+ " " +:+ token)
      ∧ Js.toLowerCase scheme = "bearer"
      ∧ free_of " " token
      ∧ token ∉ VALID_API_KEYS.
Proof.
  split.
  - intros H403.
    destruct (verifyApiKey_two_parts h)
      as [(r & Hr & Hs)|(scheme & token & Ha & Hs & Hf & Hv)].
    + rewrite Hr in H403. injection H403 as ->. done.
    + rewrite Hv in H403. case_bool_decide as Hin; [done|].
      by exists scheme, token.
  - intros (scheme & token & Ha & Hs & Hf & Hout).
    unfold verifyApiKey. rewrite Ha.
    assert (Js.truthy (Some (scheme +:+ " " +:+ token)) = true) as ->.
    { destruct scheme; [discriminate Hs|done]. }
    simpl default. rewrite split_scheme_token; [|by apply toLowerCase_free;
      rewrite Hs; vm_compute|done].
    simpl. rewrite Hs. simpl. by rewrite bool_decide_eq_false_2.
Qed.

(** A scheme followed by one space and nothing: 403, not 401. *)
Example bearer_without_key :
  verifyApiKey (Sample.bearer "Bearer" "")
  = inl (json 403 (detail "Invalid API key")).
Proof. by vm_compute. Qed.

Lemma verifyApiKey_rejection h r :
  verifyApiKey h = inl r → status_of r = 401 ∨ status_of r = 403.
Proof.
  intros Hr.
  destruct (verifyApiKey_two_parts h)
    as [(r' & Hr' & Hs)|(scheme & token & _ & _ & _ & Hv)].
  - left. congruence.
  - rewrite Hv in Hr. case_bool_decide; [done|]. injection Hr as <-.
    by right.
Qed.

(** X3: a request to a protected route that does not pass the middleware is
    answered 401 or 403, changes neither the catalog nor the registry and
    reaches no file. *)
Theorem rejected_request_changes_nothing now disk req h st :
  IndexJs.credentials req = Some h →
  (∀ key, verifyApiKey h ≠ inr key) →
  ∃ r, run (IndexJs.app now disk req) st = (st, [], r)
       ∧ (status_of r = 401 ∨ status_of r = 403).
Proof.
  intros Hc Hrej.
  destruct (verifyApiKey h) as [r|key] eqn:Hv; [|by destruct (Hrej key)].
  exists r. split; [|by eapply verifyApiKey_rejection].
  destruct req; simplify_eq/=; by rewrite run_authenticated, Hv.
Qed.

Lemma rejected_request_changes_nothing_witness :
  ∃ r, run (IndexJs.app Sample.now Scenario.disk
              (IndexJs.POST_release Scenario.stranger Scenario.publish_10))
         IndexJs.initial
       = (IndexJs.initial, [], r)
       ∧ (status_of r = 401 ∨ status_of r = 403).
Proof.
  apply (rejected_request_changes_nothing Sample.now Scenario.disk
           (IndexJs.POST_release Scenario.stranger Scenario.publish_10)
           Scenario.stranger IndexJs.initial).
  - reflexivity.
  - intros key Hk. by vm_compute in Hk.
Defined.

(** ** Check and download on the disk ([index.js]) *)

Section CheckCases.
Import IndexJs.
Variables (now : string) (disk : Disk) (h : headers.t) (q : query.t).
Variable st : State.

Local Abbreviation recorded :=
  (record_device now (default "" (query.device q))
     (default "" (query.version q)) (query.rssi q) st).

(** The answer with an update, for the latest version [v] with record
    [info], checksum [sum] and size [n]. *)
Local Abbreviation offer v info sum n :=
  (json 200 (decision
     {| update_available := true;
        latest_version := Some v%string;
        download_url :=
          Js.interpolate (Js.or_else (headers.x_forwarded_proto h)
                            (Some "http"))
          +:+ "://"
          +:+ Js.interpolate (Js.or_else (headers.x_forwarded_host h)
                                (headers.host h))
          +:+ "/api/v1/firmware/download/" +:+ v;
        checksum := sum;
        decision_mandatory := mandatory info;
        decision_changelog := Some (changelog info);
        file_size := Some (Js.Int n) |})).

(** The paths of the check handler once both parameters are there and the
    reported version is smaller than the latest one. *)
Lemma check_update_cases v info :
  Js.truthy (query.device q) = true →
  Js.truthy (query.version q) = true →
  latestVersion (AVAILABLE_FIRMWARE st) = Some v →
  AVAILABLE_FIRMWARE st !! v = Some info →
  Js.string_lt (default "" (query.version q)) v = true →
  run (check now disk h q) st
  = let f := filename info in
    if negb (existsSync disk f) then
      (recorded, [ExistsSync f], json 404 (detail "Firmware file not found"))
    else
      match readFileSync_md5 disk f with
      | None => (recorded, [ExistsSync f; ReadFileSync f], uncaught)
      | Some sum =>
          match statSync_size disk f with
          | None =>
              (recorded, [ExistsSync f; ReadFileSync f; StatSync f], uncaught)
          | Some n =>
              (recorded, [ExistsSync f; ReadFileSync f; StatSync f],
               offer v info sum n)
          end
      end.
Proof.
  intros Hd Hv Hl Hi Hlt. run_handler. rewrite Hd, Hv. simpl.
  rewrite Hl. unfold needsUpdate. simpl. rewrite Hlt. simpl.
  rewrite (get_own _ _ _ Hi). simpl.
  destruct (existsSync disk (filename info)); simpl; [|done].
  destruct (readFileSync_md5 disk (filename info)); simpl; [|done].
  by destruct (statSync_size disk (filename info)).
Qed.

(** Every run of the check handler is on one of three roads. *)
Lemma check_roads :
  (Js.truthy (query.device q) && Js.truthy (query.version q) = false)
  ∨ (Js.truthy (query.device q) = true
     ∧ Js.truthy (query.version q) = true
     ∧ needsUpdate (default "" (query.version q))
         (latestVersion (AVAILABLE_FIRMWARE st)) = false)
  ∨ (∃ v info,
       Js.truthy (query.device q) = true
       ∧ Js.truthy (query.version q) = true
       ∧ latestVersion (AVAILABLE_FIRMWARE st) = Some v
       ∧ AVAILABLE_FIRMWARE st !! v = Some info
       ∧ Js.string_lt (default "" (query.version q)) v = true).
Proof.
  destruct (Js.truthy (query.device q)); [|by left].
  destruct (Js.truthy (query.version q)); [|by left].
  destruct (needsUpdate _ _) eqn:Hn; [|right; by left].
  right; right.
  destruct (latestVersion (AVAILABLE_FIRMWARE st)) as [v|] eqn:Hl; [|done].
  destruct (latestInfo_own _ _ Hl) as (info & Hi & _).
  by exists v, info.
Qed.
End CheckCases.

Lemma download_cases disk version st info :
  AVAILABLE_FIRMWARE st !! version = Some info →
  run (IndexJs.download disk version) st
  = let f := filename info in
    if negb (IndexJs.existsSync disk f) then
      (st, [IndexJs.ExistsSync f], json 404 (detail "Firmware file not found"))
    else
      match IndexJs.statSync_size disk f with
      | None => (st, [IndexJs.ExistsSync f; IndexJs.StatSync f], uncaught)
      | Some _ =>
          let disposition :=
            "attachment; filename=" +:+ dquote +:+ f +:+ dquote in
          (st, [IndexJs.ExistsSync f; IndexJs.StatSync f],
           if negb (IndexJs.header_value_ok disposition) then uncaught
           else if IndexJs.is_dotfile f then send_answer 404
           else match IndexJs.sendFile_answer disk f with
                | None => sendFile "application/octet-stream" disposition f
                | Some status => send_answer status
                end)
      end.
Proof.
  intros Hi. unfold IndexJs.download.
  set (ok := IndexJs.header_value_ok
               ("attachment; filename=" +:+ dquote +:+ filename info
                +:+ dquote)).
  run_handler. unfold Js.has_truthy.
  rewrite (get_own _ _ _ Hi). simpl.
  destruct (IndexJs.existsSync disk (filename info)); simpl; [|done].
  destruct (IndexJs.statSync_size disk (filename info)); simpl; [|done].
  fold ok. destruct ok; simpl; [|done].
  destruct (IndexJs.is_dotfile (filename info)); simpl; [done|].
  by destruct (IndexJs.sendFile_answer disk (filename info)).
Qed.

(** X4: a download of a version that is not a key of the catalog reaches no
    file and changes nothing; the answer is 404, unless the version is a
    name that every object inherits, where the handler throws and the
    answer is 500. *)
Theorem download_without_key_reads_nothing disk version st :
  AVAILABLE_FIRMWARE st !! version = None →
  run (IndexJs.download disk version) st
  = (st, [],
     if Js.inherited version then uncaught
     else json 404 (detail "Firmware version not found")).
Proof.
  intros Hn. run_handler. unfold Js.has_truthy, Js.get. rewrite Hn.
  by destruct (Js.inherited version).
Qed.

Lemma download_without_key_reads_nothing_witness :
  run (IndexJs.download Scenario.disk "9.9.9") IndexJs.initial
  = (IndexJs.initial, [], json 404 (detail "Firmware version not found"))
  ∧ run (IndexJs.download Scenario.disk "toString") IndexJs.initial
    = (IndexJs.initial, [], uncaught).
Proof.
  split.
  - apply (download_without_key_reads_nothing Scenario.disk "9.9.9"
             IndexJs.initial). by vm_compute.
  - apply (download_without_key_reads_nothing Scenario.disk "toString"
             IndexJs.initial). by vm_compute.
Defined.

(** X5: when the download handler sends a file, the version is a key of
    the catalog, the file is the one of its record, the disk was asked for
    its existence first (and then for its size), and the two headers are
    the octet-stream type and the attachment with the file name; the state
    is left as it was. *)
Theorem download_sends_the_published_file disk version st ct cd f :
  (run (IndexJs.download disk version) st).2 = sendFile ct cd f →
  ∃ info,
    AVAILABLE_FIRMWARE st !! version = Some info
    ∧ f = filename info
    ∧ IndexJs.existsSync disk f = true
    ∧ run (IndexJs.download disk version) st
      = (st, [IndexJs.ExistsSync f; IndexJs.StatSync f],
         sendFile "application/octet-stream"
           ("attachment; filename=" +:+ dquote +:+ f +:+ dquote) f).
Proof.
  destruct (AVAILABLE_FIRMWARE st !! version) as [info|] eqn:Hi.
  - rewrite (download_cases disk version st info Hi). cbv zeta.
    destruct (IndexJs.existsSync disk (filename info)) eqn:He;
      cbn [negb snd fst]; [|done].
    destruct (IndexJs.statSync_size disk (filename info));
      cbn [snd fst]; [|done].
    destruct (negb (IndexJs.header_value_ok _)); [done|].
    destruct (IndexJs.is_dotfile (filename info)); [done|].
    destruct (IndexJs.sendFile_answer disk (filename info)); [done|].
    intros [= <- <- <-]. by exists info.
  - run_handler. unfold Js.has_truthy, Js.get. rewrite Hi.
    by destruct (Js.inherited version).
Qed.

Lemma download_sends_the_published_file_witness :
  ∃ info,
    AVAILABLE_FIRMWARE IndexJs.initial !! "2.3.0" = Some info
    ∧ "sketch_feb14a_v2_3.ino.bin" = filename info
    ∧ IndexJs.existsSync Scenario.disk "sketch_feb14a_v2_3.ino.bin" = true
    ∧ run (IndexJs.download Scenario.disk "2.3.0") IndexJs.initial
      = (IndexJs.initial,
         [IndexJs.ExistsSync "sketch_feb14a_v2_3.ino.bin";
          IndexJs.StatSync "sketch_feb14a_v2_3.ino.bin"],
         sendFile "application/octet-stream"
           ("attachment; filename=" +:+ dquote
            +:+ "sketch_feb14a_v2_3.ino.bin" +:+ dquote)
           "sketch_feb14a_v2_3.ino.bin").
Proof.
  apply (download_sends_the_published_file Scenario.disk "2.3.0"
           IndexJs.initial "application/octet-stream"
           ("attachment; filename=" +:+ dquote
            +:+ "sketch_feb14a_v2_3.ino.bin" +:+ dquote)).
  by vm_compute.
Defined.

Lemma append_assoc (a b c : string) : (a +:+ b) +:+ c = a +:+ b +:+ c.
Proof.
  induction a as [|x a IH]; [done|].
  change (String x ((a +:+ b) +:+ c) = String x (a +:+ b +:+ c)).
  by f_equal.
Qed.

Lemma url_shape (protocol host route : string) :
  protocol +:+ "://" +:+ host +:+ route
  = (protocol +:+ "://" +:+ host) +:+ route.
Proof. by rewrite !append_assoc. Qed.

(** X6: when the check handler offers an update, the offered version is
    the latest key of the catalog, the checksum is the MD5 of the file of
    its record, the mandatory flag is the one of the record and the
    download URL ends in the download route of that version.  A download
    of that version that meets the same disk finds that file, asks for its
    size and hands that very file to [res.sendFile], unless the file name
    cannot stand in a header, where [res.setHeader] throws (500); the
    answer is then the one of Express's [send] for that file: 404 for a
    dotfile, the whole file or another status otherwise. *)
Theorem offered_update_is_downloadable now disk h q st d :
  (run (IndexJs.check now disk h q) st).2 = json 200 (decision d) →
  update_available d = true →
  ∃ v info,
    latest_version d = Some v
    ∧ latestVersion (AVAILABLE_FIRMWARE st) = Some v
    ∧ AVAILABLE_FIRMWARE st !! v = Some info
    ∧ IndexJs.readFileSync_md5 disk (filename info) = Some (checksum d)
    ∧ decision_mandatory d = mandatory info
    ∧ (∃ origin,
         download_url d = origin +:+ "/api/v1/firmware/download/" +:+ v)
    ∧ let st' := (run (IndexJs.check now disk h q) st).1.1 in
      let f := filename info in
      let disposition :=
        "attachment; filename=" +:+ dquote +:+ f +:+ dquote in
      run (IndexJs.download disk v) st'
      = (st', [IndexJs.ExistsSync f; IndexJs.StatSync f],
         if negb (IndexJs.header_value_ok disposition) then uncaught
         else if IndexJs.is_dotfile f then send_answer 404
         else match IndexJs.sendFile_answer disk f with
              | None => sendFile "application/octet-stream" disposition f
              | Some status => send_answer status
              end).
Proof.
  destruct (check_roads q st) as [Hm|[(Hd & Hv & Hn)|Hup]].
  - by rewrite check_missing.
  - rewrite check_up_to_date by done. simpl. by intros [= <-].
  - destruct Hup as (v & info & Hd & Hv & Hl & Hi & Hlt).
    rewrite (check_update_cases now disk h q st v info) by done. simpl.
    destruct (IndexJs.existsSync disk (filename info)) eqn:He; simpl;
      [|done].
    destruct (IndexJs.readFileSync_md5 disk (filename info)) as [sum|]
      eqn:Hr; simpl; [|done].
    destruct (IndexJs.statSync_size disk (filename info)) as [n|] eqn:Hs;
      simpl; [|done].
    intros [= <-] _. simpl. exists v, info. split_and!; try done.
    + exists (Js.interpolate (Js.or_else (headers.x_forwarded_proto h)
                                (Some "http"))
              +:+ "://"
              +:+ Js.interpolate (Js.or_else (headers.x_forwarded_host h)
                                    (headers.host h))).
      exact (url_shape _ _ _).
    + rewrite (download_cases disk v _ info) by done. cbv zeta.
      by rewrite He, Hs.
Qed.

Lemma offered_update_is_downloadable_witness :
  let out := run (IndexJs.check Sample.now Scenario.disk Scenario.key
                    (Sample.ask (Some "D1") (Some "2.2.0")))
               IndexJs.initial in
  ∃ d, out.2 = json 200 (decision d)
       ∧ ∃ v info,
           latest_version d = Some v
           ∧ latestVersion (AVAILABLE_FIRMWARE IndexJs.initial) = Some v
           ∧ AVAILABLE_FIRMWARE IndexJs.initial !! v = Some info
           ∧ IndexJs.readFileSync_md5 Scenario.disk (filename info)
             = Some (checksum d)
           ∧ decision_mandatory d = mandatory info
           ∧ (∃ origin,
                download_url d
                = origin +:+ "/api/v1/firmware/download/" +:+ v)
           ∧ let f := filename info in
             let disposition :=
               "attachment; filename=" +:+ dquote +:+ f +:+ dquote in
             run (IndexJs.download Scenario.disk v) out.1.1
             = (out.1.1, [IndexJs.ExistsSync f; IndexJs.StatSync f],
                if negb (IndexJs.header_value_ok disposition) then uncaught
                else if IndexJs.is_dotfile f then send_answer 404
                else match IndexJs.sendFile_answer Scenario.disk f with
                     | None =>
                         sendFile "application/octet-stream" disposition f
                     | Some status => send_answer status
                     end).
Proof.
  intros out. eexists. split; [by vm_compute|].
  apply (offered_update_is_downloadable Sample.now Scenario.disk Scenario.key
           (Sample.ask (Some "D1") (Some "2.2.0")) IndexJs.initial);
    by vm_compute.
Defined.

(** A file whose name begins with a dot is offered by the check handler
    and refused by [send]; a file name with a line feed is offered and
    breaks [res.setHeader]; the file of the initial catalog is served. *)
Example offered_and_not_served :
  let published f :=
    publish Sample.now "3.0.0" f "Third" false IndexJs.initial in
  let offered f :=
    ∃ d, (run (IndexJs.check Sample.now Scenario.disk Scenario.key
                 (Sample.ask (Some "D1") (Some "2.2.0"))) (published f)).2
         = json 200 (decision d)
         ∧ update_available d = true ∧ latest_version d = Some "3.0.0" in
  let answer f :=
    (run (IndexJs.download Scenario.disk "3.0.0") (published f)).2 in
  (offered ".fw_3_0.bin" ∧ answer ".fw_3_0.bin" = send_answer 404)
  ∧ (offered "v3/.fw.bin" ∧ answer "v3/.fw.bin" = send_answer 404)
  ∧ (offered (String (ascii_of_N 10) "fw.bin")
     ∧ answer (String (ascii_of_N 10) "fw.bin") = uncaught)
  ∧ (offered "fw_3_0.bin"
     ∧ answer "fw_3_0.bin"
       = sendFile "application/octet-stream"
           ("attachment; filename=" +:+ dquote +:+ "fw_3_0.bin" +:+ dquote)
           "fw_3_0.bin").
Proof.
  intros published offered answer.
  split_and!; try (by vm_compute); eexists; by vm_compute.
Qed.

(** X7: the check handler reaches no file but the one of the latest
    release; it asks for its existence first, reads it only when it was
    found, and asks for its size only after the read. *)
Theorem check_disk_calls now disk h q st :
  let tr := (run (IndexJs.check now disk h q) st).1.2 in
  tr = []
  ∨ ∃ v info,
      latestVersion (AVAILABLE_FIRMWARE st) = Some v
      ∧ AVAILABLE_FIRMWARE st !! v = Some info
      ∧ (tr = [IndexJs.ExistsSync (filename info)]
         ∨ IndexJs.existsSync disk (filename info) = true
           ∧ (tr = [IndexJs.ExistsSync (filename info);
                    IndexJs.ReadFileSync (filename info)]
              ∨ tr = [IndexJs.ExistsSync (filename info);
                      IndexJs.ReadFileSync (filename info);
                      IndexJs.StatSync (filename info)])).
Proof.
  intros tr. subst tr.
  destruct (check_roads q st) as [Hm|[(Hd & Hv & Hn)|Hup]].
  - left. by rewrite check_missing.
  - left. by rewrite check_up_to_date.
  - destruct Hup as (v & info & Hd & Hv & Hl & Hi & Hlt).
    right. exists v, info. split_and!; try done.
    rewrite (check_update_cases now disk h q st v info) by done. simpl.
    destruct (IndexJs.existsSync disk (filename info)); simpl;
      [|by left].
    right. split; [done|].
    destruct (IndexJs.readFileSync_md5 disk (filename info)); simpl;
      [|by left].
    destruct (IndexJs.statSync_size disk (filename info)); by right.
Qed.

(** X8: the check handler answers 404 exactly when both parameters are
    there, the reported version is lexicographically smaller than the
    latest key, and the disk does not find the file of the latest
    release. *)
Theorem check_not_found_iff now disk h q st :
  status_of (run (IndexJs.check now disk h q) st).2 = 404
  ↔ ∃ v info,
      Js.truthy (query.device q) = true
      ∧ Js.truthy (query.version q) = true
      ∧ latestVersion (AVAILABLE_FIRMWARE st) = Some v
      ∧ AVAILABLE_FIRMWARE st !! v = Some info
      ∧ lex_lt (default "" (query.version q)) v
      ∧ IndexJs.existsSync disk (filename info) = false.
Proof.
  split.
  - destruct (check_roads q st) as [Hm|[(Hd & Hv & Hn)|Hup]].
    + by rewrite check_missing.
    + by rewrite check_up_to_date.
    + destruct Hup as (v & info & Hd & Hv & Hl & Hi & Hlt).
      rewrite (check_update_cases now disk h q st v info) by done. simpl.
      destruct (IndexJs.existsSync disk (filename info)) eqn:He; simpl.
      * destruct (IndexJs.readFileSync_md5 disk (filename info)); simpl;
          [|done].
        by destruct (IndexJs.statSync_size disk (filename info)).
      * intros _. exists v, info. split_and!; try done.
        by apply string_lt_lex.
  - intros (v & info & Hd & Hv & Hl & Hi & Hlt & He).
    rewrite (check_update_cases now disk h q st v info); try done.
    + simpl. by rewrite He.
    + by apply string_lt_lex.
Qed.

Lemma check_not_found_iff_witness :
  status_of (run (IndexJs.check Sample.now Sample.empty_dir Scenario.key
                    (Sample.ask (Some "D1") (Some "2.2.0")))
               IndexJs.initial).2 = 404.
Proof.
  apply (proj2 (check_not_found_iff Sample.now Sample.empty_dir Scenario.key
                  (Sample.ask (Some "D1") (Some "2.2.0")) IndexJs.initial)).
  exists "2.3.0",
    {| filename := "sketch_feb14a_v2_3.ino.bin";
       release_date := "2026-02-14";
       changelog := "Updated version";
       mandatory := false |}.
  split_and!; try by vm_compute.
  apply lex_next, lex_next, lex_first. by vm_compute.
Defined.

(** ** What each route touches *)

Lemma release_registry now disk b st :
  devicesDb (run (IndexJs.release now disk b) st).1.1 = devicesDb st.
Proof.
  rewrite release_cases.
  destruct (negb _); [done|]. destruct (Js.has_truthy _ _); [done|].
  by destruct (negb (IndexJs.existsSync _ _)).
Qed.

(** X9: the catalog is changed by no route but the release route, and the
    registry by no route but the check route. *)
Theorem routes_keep_to_their_global now disk req st :
  let st' := (run (IndexJs.app now disk req) st).1.1 in
  ((∀ h b, req ≠ IndexJs.POST_release h b) →
   AVAILABLE_FIRMWARE st' = AVAILABLE_FIRMWARE st)
  ∧ ((∀ h q, req ≠ IndexJs.GET_check h q) →
     devicesDb st' = devicesDb st).
Proof.
  intros st'. subst st'.
  destruct req as [| |h q|h v|h|h b]; simpl; try done;
    rewrite run_authenticated; destruct (verifyApiKey h); try done.
  - split; [intros _; apply check_catalog|]. intros H. by destruct (H h q).
  - by rewrite download_state.
  - split; [|intros _; apply release_registry]. intros H.
    by destruct (H h b).
Qed.

Lemma routes_keep_to_their_global_witness :
  let st' := (run (IndexJs.app Sample.now Scenario.disk
                     (IndexJs.POST_release Scenario.key Scenario.publish_10))
                IndexJs.initial).1.1 in
  devicesDb st' = devicesDb IndexJs.initial
  ∧ AVAILABLE_FIRMWARE st' ≠ AVAILABLE_FIRMWARE IndexJs.initial.
Proof.
  intros st'. split.
  - apply (routes_keep_to_their_global Sample.now Scenario.disk
             (IndexJs.POST_release Scenario.key Scenario.publish_10)
             IndexJs.initial). intros h q. discriminate.
  - intros E. apply (f_equal (λ m, m !! "10.0.0")) in E.
    by vm_compute in E.
Defined.

(** ** Asking twice *)

Lemma set_set {V} (o : gmap string V) k v :
  Js.set (Js.set o k v) k v = Js.set o k v.
Proof.
  unfold Js.set. destruct (String.eqb k "__proto__"); [done|].
  apply insert_insert_eq.
Qed.

Lemma record_device_twice now device version rssi st :
  record_device now device version rssi
    (record_device now device version rssi st)
  = record_device now device version rssi st.
Proof. unfold record_device. simpl. by rewrite set_set. Qed.

(** The answer of the check handler and its calls do not depend on the
    registry. *)
Lemma check_ignores_registry now disk h q st db :
  let st2 := {| AVAILABLE_FIRMWARE := AVAILABLE_FIRMWARE st;
                devicesDb := db |} in
  (run (IndexJs.check now disk h q) st2).1.2
  = (run (IndexJs.check now disk h q) st).1.2
  ∧ (run (IndexJs.check now disk h q) st2).2
    = (run (IndexJs.check now disk h q) st).2.
Proof.
  intros st2.
  destruct (check_roads q st) as [Hm|[(Hd & Hv & Hn)|Hup]].
  - by rewrite !check_missing.
  - by rewrite !check_up_to_date.
  - destruct Hup as (v & info & Hd & Hv & Hl & Hi & Hlt).
    rewrite (check_update_cases now disk h q st v info) by done.
    rewrite (check_update_cases now disk h q st2 v info) by done.
    simpl. destruct (IndexJs.existsSync _ _); simpl; [|done].
    destruct (IndexJs.readFileSync_md5 _ _); simpl; [|done].
    by destruct (IndexJs.statSync_size _ _).
Qed.

(** X10: a check request that arrives a second time, with the same clock
    and the same disk, gets the same answer, makes the same calls and
    leaves the state as the first one left it: the record of the device
    is overwritten, never added twice. *)
Theorem check_twice_is_check_once now disk h q st :
  let once := run (IndexJs.app now disk (IndexJs.GET_check h q)) st in
  run (IndexJs.app now disk (IndexJs.GET_check h q)) once.1.1 = once.
Proof.
  intros once. subst once. simpl. rewrite !run_authenticated.
  destruct (verifyApiKey h); [done|].
  destruct (Js.truthy (query.device q) && Js.truthy (query.version q))
    eqn:Hp.
  - apply andb_true_iff in Hp as [Hd Hv].
    set (st1 := (run (IndexJs.check now disk h q) st).1.1).
    assert (st1 = record_device now (default "" (query.device q))
                    (default "" (query.version q)) (query.rssi q) st) as E1
      by (by apply check_state).
    destruct (check_ignores_registry now disk h q st (devicesDb st1))
      as [Htr Hr].
    assert ({| AVAILABLE_FIRMWARE := AVAILABLE_FIRMWARE st;
               devicesDb := devicesDb st1 |} = st1) as E2
      by (by rewrite E1).
    rewrite E2 in Htr, Hr.
    assert ((run (IndexJs.check now disk h q) st1).1.1 = st1) as Hs.
    { rewrite check_state by done. rewrite E1.
      apply record_device_twice. }
    destruct (run (IndexJs.check now disk h q) st1) as [[s2 t2] r2].
    destruct (run (IndexJs.check now disk h q) st) as [[s1 t1] r1].
    simpl in *. by subst.
  - by rewrite !check_missing.
Qed.

(** ** Counting the devices *)

Lemma length_Object_keys {V} (o : gmap string V) :
  length (Js.Object_keys o) = size o.
Proof.
  unfold Js.Object_keys. rewrite length_fmap. apply length_map_to_list.
Qed.

(** X11: after a check request of a device (with a name other than
    [__proto__]), the listing counts one device more than the registry had
    if the device was not in it, and as many if it was, and it shows the
    registry with the new record of the device. *)
Theorem device_count_after_check now disk h q st device version :
  query.device q = Some device → device ≠ "" →
  query.version q = Some version → version ≠ "" →
  device ≠ "__proto__" →
  let st' := (run (IndexJs.check now disk h q) st).1.1 in
  ∃ total,
    (run IndexJs.devices st').2 = json 200 (device_list total (devicesDb st'))
    ∧ total = (match devicesDb st !! device with
               | Some _ => size (devicesDb st)
               | None => S (size (devicesDb st))
               end)
    ∧ is_Some (devicesDb st' !! device).
Proof.
  intros Hd Hdne Hv Hvne Hp st'. eexists. split; [by run_handler|].
  subst st'. rewrite check_state;
    [|rewrite ?Hd, ?Hv; by apply truthy_Some..].
  rewrite Hd, Hv. simpl. rewrite length_Object_keys.
  unfold Js.set. destruct (String.eqb_spec device "__proto__"); [done|].
  split; [|by rewrite lookup_insert_eq].
  rewrite map_size_insert. by destruct (devicesDb st !! device).
Qed.

Lemma device_count_after_check_witness :
  let first := IndexJs.serve (Scenario.check_in "D1" "2.2.0")
                 IndexJs.initial in
  let again := IndexJs.serve (Scenario.check_in "D1" "2.3.0") first in
  (run IndexJs.devices first).2
  = json 200 (device_list 1 (devicesDb first))
  ∧ ∃ total,
      (run IndexJs.devices again).2
      = json 200 (device_list total (devicesDb again))
      ∧ total = 1%nat
      ∧ is_Some (devicesDb again !! "D1").
Proof.
  intros first again. split; [by vm_compute|].
  destruct (device_count_after_check Sample.now Scenario.disk Scenario.key
              (Sample.ask (Some "D1") (Some "2.3.0")) first "D1" "2.3.0"
              eq_refl ltac:(discriminate) eq_refl ltac:(discriminate)
              ltac:(discriminate))
    as (total & Hr & Ht & Hin).
  exists total. split_and!; [exact Hr| |exact Hin].
  rewrite Ht. by vm_compute.
Defined.

(** ** The catalog along a run of the server *)

(** A request leaves the catalog as it was or publishes one version, which
    is not empty and was neither a key nor an inherited name. *)
Lemma app_catalog now disk req st :
  AVAILABLE_FIRMWARE (run (IndexJs.app now disk req) st).1.1
  = AVAILABLE_FIRMWARE st
  ∨ ∃ v rec,
      v ≠ ""
      ∧ AVAILABLE_FIRMWARE st !! v = None
      ∧ Js.inherited v = false
      ∧ AVAILABLE_FIRMWARE (run (IndexJs.app now disk req) st).1.1
        = <[v := rec]> (AVAILABLE_FIRMWARE st).
Proof.
  destruct req as [| |h q|h v|h|h b]; simpl; try (by left);
    rewrite run_authenticated; destruct (verifyApiKey h); try (by left).
  - left. apply check_catalog.
  - left. by rewrite download_state.
  - rewrite release_cases.
    destruct (negb _) eqn:Hall; [by left|].
    destruct (Js.has_truthy _ _) eqn:Ht; [by left|].
    destruct (negb (IndexJs.existsSync _ _)); [by left|].
    right. apply has_truthy_false in Ht as [Hn Hi].
    apply negb_false_iff, andb_true_iff in Hall as [Hall _].
    apply andb_true_iff in Hall as [Tv _].
    exists (default "" (body.version b)). eexists.
    split_and!; try done.
    + by destruct (body.version b) as [[|c v]|].
    + simpl. unfold Js.set.
      by rewrite (proj2 (String.eqb_neq _ _) (not_inherited_proto _ Hi)).
Qed.

Lemma latestVersion_unique (cat : gmap string FirmwareRelease) m :
  is_Some (cat !! m) →
  (∀ k, is_Some (cat !! k) → Js.string_le k m) →
  latestVersion cat = Some m.
Proof.
  intros Hm Hup.
  destruct (latestVersion_nonempty cat) as [v Hv].
  { intros ->. rewrite lookup_empty in Hm. by destruct Hm. }
  rewrite Hv. f_equal. apply string_le_antisym.
  - apply Hup. by eapply latestVersion_is_key.
  - by eapply latestVersion_upper.
Qed.

(** X12: after any sequence of requests on the server started with its
    two releases, no key of the catalog is empty or a name inherited from
    [Object.prototype], and there is a latest version, 2.3.0 or a key that
    is lexicographically greater: the check handler always has a latest
    version to compare with and to report. *)
Theorem reachable_catalog_is_well_formed later :
  let st := IndexJs.serve_all later IndexJs.initial in
  (∀ k, is_Some (AVAILABLE_FIRMWARE st !! k) →
        k ≠ "" ∧ Js.inherited k = false)
  ∧ ∃ v, latestVersion (AVAILABLE_FIRMWARE st) = Some v
         ∧ (v = "2.3.0" ∨ lex_lt "2.3.0" v).
Proof.
  intros st. split.
  - subst st.
    assert (∀ k, is_Some (AVAILABLE_FIRMWARE IndexJs.initial !! k) →
                 k ≠ "" ∧ Js.inherited k = false) as Hinit.
    { intros k. simpl. rewrite !lookup_insert.
      repeat case_decide; subst; try done.
      rewrite lookup_empty. by intros [? ?]. }
    revert Hinit. generalize IndexJs.initial.
    induction later as [|a later IH]; intros st Hst; [done|].
    simpl. apply IH. intros k. unfold IndexJs.serve.
    destruct (app_catalog (IndexJs.clock a) (IndexJs.disk a)
                (IndexJs.request a) st)
      as [->|(v & rec & Hv & _ & Hi & ->)]; [by apply Hst|].
    rewrite lookup_insert. case_decide; subst; [done|]. by apply Hst.
  - assert (is_Some (AVAILABLE_FIRMWARE st !! "2.3.0")) as Hk.
    { exists {| filename := "sketch_feb14a_v2_3.ino.bin";
                release_date := "2026-02-14";
                changelog := "Updated version";
                mandatory := false |}.
      subst st. apply (serve_all_keeps later IndexJs.initial).
      by vm_compute. }
    destruct (latestVersion_nonempty (AVAILABLE_FIRMWARE st)) as [v Hv].
    { intros E. rewrite E, lookup_empty in Hk. by destruct Hk. }
    exists v. split; [done|].
    destruct (proj1 (string_le_lex "2.3.0" v)) as [->|Hlt]; eauto.
    by eapply latestVersion_upper.
Qed.

(** X13: the latest version never goes down: after any sequence of
    requests it is the one it was or a lexicographically greater one. *)
Theorem latest_never_decreases later st v :
  latestVersion (AVAILABLE_FIRMWARE st) = Some v →
  ∃ v', latestVersion (AVAILABLE_FIRMWARE (IndexJs.serve_all later st))
        = Some v'
        ∧ (v' = v ∨ lex_lt v v').
Proof.
  intros Hv. destruct (latestVersion_is_key _ _ Hv) as [info Hi].
  pose proof (serve_all_keeps later st v info Hi) as Hk.
  destruct (latestVersion_nonempty
              (AVAILABLE_FIRMWARE (IndexJs.serve_all later st))) as [v' Hv'].
  { intros E. by rewrite E, lookup_empty in Hk. }
  exists v'. split; [done|].
  destruct (proj1 (string_le_lex v v')) as [->|Hlt]; eauto.
  eapply latestVersion_upper; [done|by eexists].
Qed.

Lemma latest_never_decreases_witness :
  ∃ v', latestVersion
          (AVAILABLE_FIRMWARE
             (IndexJs.serve_all
                [Scenario.check_in "D1" "2.2.0";
                 {| IndexJs.clock := Sample.now;
                    IndexJs.disk := Scenario.disk;
                    IndexJs.request :=
                      IndexJs.POST_release Scenario.key
                        (Sample.offer "3.0.0" "fw_3_0.bin" "Third" None) |}]
                IndexJs.initial))
        = Some v'
        ∧ (v' = "2.3.0" ∨ lex_lt "2.3.0" v').
Proof.
  apply (latest_never_decreases _ IndexJs.initial "2.3.0").
  by vm_compute.
Defined.

(** X14: an accepted release makes its version the latest one exactly when
    that version is lexicographically greater than the latest so far;
    otherwise the latest version stays, whatever the version numbers
    say. *)
Theorem release_moves_latest now disk b st v old :
  body.version b = Some v →
  latestVersion (AVAILABLE_FIRMWARE st) = Some old →
  status_of (run (IndexJs.release now disk b) st).2 = 200 →
  let latest' :=
    latestVersion (AVAILABLE_FIRMWARE (run (IndexJs.release now disk b) st).1.1)
  in
  (lex_lt old v → latest' = Some v)
  ∧ (¬ lex_lt old v → latest' = Some old).
Proof.
  intros Hv Hold Hok latest'. subst latest'. revert Hok.
  rewrite release_cases.
  destruct (negb _); [done|].
  destruct (Js.has_truthy _ _) eqn:Ht; [done|].
  destruct (negb (IndexJs.existsSync _ _)); [done|]. intros _.
  rewrite Hv in *. simpl default in *.
  apply has_truthy_false in Ht as [Hn Hi].
  simpl. unfold Js.set.
  rewrite (proj2 (String.eqb_neq _ _) (not_inherited_proto _ Hi)).
  destruct (latestVersion_is_key _ _ Hold) as [info Hinfo].
  split; intros Hlt; apply latestVersion_unique.
  - rewrite lookup_insert_eq. by eexists.
  - intros k. rewrite lookup_insert. case_decide; subst.
    + intros _. apply string_le_refl.
    + intros Hk. apply string_le_lex. right.
      destruct (proj1 (string_le_lex k old)) as [->|Hko];
        eauto using lex_lt_trans.
      by eapply latestVersion_upper.
  - rewrite lookup_insert_ne by congruence. by eexists.
  - intros k. rewrite lookup_insert. case_decide; subst.
    + intros _. apply string_le_lex.
      destruct (lex_trichotomy k old) as [?|[?|?]]; eauto. done.
    + by apply latestVersion_upper.
Qed.

(** Ten is published and two stays the latest. *)
Lemma release_moves_latest_witness :
  let st' := (run (IndexJs.release Sample.now Scenario.disk
                     Scenario.publish_10) IndexJs.initial).1.1 in
  is_Some (AVAILABLE_FIRMWARE st' !! "10.0.0")
  ∧ latestVersion (AVAILABLE_FIRMWARE st') = Some "2.3.0".
Proof.
  intros st'. split; [eexists; by vm_compute|].
  apply (release_moves_latest Sample.now Scenario.disk Scenario.publish_10
           IndexJs.initial "10.0.0" "2.3.0");
    [reflexivity | by vm_compute | by vm_compute |].
  apply lex_lt_asym, lex_first. by vm_compute.
Defined.

(** X15: the root route, which asks for no key, lists every version of the
    catalog once and nothing else, and changes nothing.  (The embedding does
    not give the order of the list.) *)
Theorem root_lists_every_version_once st :
  ∃ l, run IndexJs.root st = (st, [], json 200 (server_info l))
       ∧ NoDup l
       ∧ ∀ k, k ∈ l ↔ is_Some (AVAILABLE_FIRMWARE st !! k).
Proof.
  eexists. split; [by run_handler|]. split.
  - apply NoDup_fst_map_to_list.
  - apply elem_of_Object_keys.
Qed.

(** ** The S3 server: what is asked of the bucket *)

Lemma unquote_free s : free_of (ascii_of_N 34) (S3.unquote s).
Proof.
  induction s as [|c s IH]; [done|].
  unfold S3.unquote; fold S3.unquote.
  destruct (Ascii.eqb_spec c (ascii_of_N 34)) as [E|E]; [done|].
  split; [exact E|exact IH].
Qed.

(** X16: [checkS3File] makes one HEAD request for the object of the file
    name and changes nothing; it reports the object as existing exactly
    when the answer has status 200; the etag it reports holds no double
    quote; and when the answer has no [content-length], or an empty one,
    the size it reports is 0. *)
Theorem checkS3File_metadata net f st :
  ∃ m, S3.checkS3File net f st = (st, [S3.HEAD (S3.getS3Url f)], inr m)
       ∧ (S3.found m = true
          ↔ ∃ cl et, S3.head net (S3.getS3Url f)
                     = S3.head_response 200 cl et)
       ∧ (∀ e, S3.etag m = Some e → free_of (ascii_of_N 34) e)
       ∧ (∀ cl et,
            S3.head net (S3.getS3Url f) = S3.head_response 200 cl et →
            Js.truthy cl = false →
            S3.size m = Some (Js.Int 0)).
Proof.
  eexists. split; [reflexivity|].
  destruct (S3.head net (S3.getS3Url f)) as [code cl et|] eqn:Hh.
  - destruct (Z.eqb_spec code 200) as [Hc|Hc]; simpl.
    + subst code. split_and!.
      * split; [by eexists _, _|done].
      * intros e. destruct et as [e'|]; simpl; [|done].
        intros [= <-]. apply unquote_free.
      * intros cl' et' [= <- <-] Hcl. unfold Js.or_else. by rewrite Hcl.
    + split_and!; try done.
      * split; [done|]. by intros (cl' & et' & [= -> _ _]).
      * by intros cl' et' [= -> _ _].
  - simpl. split_and!; try done. split; [done|]. by intros (? & ? & [=]).
Qed.

Lemma checkS3File_metadata_witness :
  ∃ m, S3.checkS3File Scenario.silent_bucket "fw_10.bin" S3.initial
       = (S3.initial, [S3.HEAD (S3.getS3Url "fw_10.bin")], inr m)
       ∧ S3.found m = true
       ∧ S3.etag m = Some "abc123"
       ∧ S3.size m = Some (Js.Int 0).
Proof.
  destruct (checkS3File_metadata Scenario.silent_bucket "fw_10.bin"
              S3.initial) as (m & Hrun & Hfound & _ & Hsize).
  exists m. split_and!; [exact Hrun| | |].
  - apply Hfound. by eexists _, _.
  - injection Hrun as <-. by vm_compute.
  - by apply (Hsize None (Some (dquote +:+ "abc123" +:+ dquote))).
Defined.

Section CheckCasesS3.
Import S3.
Variables (now : string) (net : Net) (q : query.t) (st : State).

Local Abbreviation recorded :=
  (record_device now (default "" (query.device q))
     (default "" (query.version q)) (query.rssi q) st).

Lemma s3_check_update_cases v info :
  Js.truthy (query.device q) = true →
  Js.truthy (query.version q) = true →
  latestVersion (AVAILABLE_FIRMWARE st) = Some v →
  AVAILABLE_FIRMWARE st !! v = Some info →
  Js.string_lt (default "" (query.version q)) v = true →
  run (check now net q) st
  = let url := getS3Url (filename info) in
    match head net url with
    | head_response 200 cl et =>
        match get net url with
        | get_response 200 (stream_end sum) =>
            (recorded, [HEAD url; GET url],
             json 200 (decision
               {| update_available := true;
                  latest_version := Some v;
                  download_url := url;
                  checksum := sum;
                  decision_mandatory := mandatory info;
                  decision_changelog := Some (changelog info);
                  file_size :=
                    Some (Js.parseInt
                            (default "0" (Js.or_else cl (Some "0")))) |}))
        | _ => (recorded, [HEAD url; GET url], internal_error)
        end
    | _ => (recorded, [HEAD url], json 404 (detail "Firmware file not found"))
    end.
Proof.
  intros Hd Hv Hl Hi Hlt. run_handler. rewrite Hd, Hv. simpl.
  rewrite Hl. unfold needsUpdate. simpl. rewrite Hlt. simpl.
  rewrite (get_own _ _ _ Hi). simpl.
  destruct (head net (getS3Url (filename info))) as [code cl et|]; [|done].
  destruct (Z.eqb_spec code 200) as [Hc|Hc]; simpl.
  - subst code.
    destruct (get net (getS3Url (filename info))) as [c2 s|]; [|done].
    destruct (Z.eqb_spec c2 200) as [Hc2|Hc2]; simpl.
    + subst c2. by destruct s.
    + destruct c2 as [|p|p]; try done.
      repeat (destruct p as [p|p|]; try done).
  - destruct code as [|p|p]; try done.
    repeat (destruct p as [p|p|]; try done).
Qed.
End CheckCasesS3.

Lemma s3_download_cases net version st info :
  AVAILABLE_FIRMWARE st !! version = Some info →
  run (S3.download net version) st
  = let url := S3.getS3Url (filename info) in
    match S3.head net url with
    | S3.head_response 200 _ _ => (st, [S3.HEAD url], redirect url)
    | _ => (st, [S3.HEAD url], json 404 (detail "Firmware file not found"))
    end.
Proof.
  intros Hi. run_download. unfold Js.has_truthy.
  rewrite (get_own _ _ _ Hi). simpl.
  destruct (S3.head net (S3.getS3Url (filename info))) as [code cl et|];
    [|done].
  destruct (Z.eqb_spec code 200) as [Hc|Hc]; simpl; [by subst code|].
  destruct code as [|p|p]; try done.
  repeat (destruct p as [p|p|]; try done).
Qed.

(** X17: when the S3 server offers an update, the offered version is the
    latest key of the catalog; the download URL is the address of the
    object of its record in the bucket; the size is what the HEAD request
    for that address reported, the checksum the digest of what the GET
    request for that address delivered; and a download request for that
    version that meets the same bucket is redirected to that address. *)
Theorem s3_offer_points_to_the_object now net q st d :
  (run (S3.check now net q) st).2 = json 200 (decision d) →
  update_available d = true →
  ∃ v info cl et,
    latest_version d = Some v
    ∧ latestVersion (AVAILABLE_FIRMWARE st) = Some v
    ∧ AVAILABLE_FIRMWARE st !! v = Some info
    ∧ download_url d = S3.getS3Url (filename info)
    ∧ S3.head net (download_url d) = S3.head_response 200 cl et
    ∧ file_size d
      = Some (Js.parseInt (default "0" (Js.or_else cl (Some "0"))))
    ∧ S3.get net (download_url d)
      = S3.get_response 200 (S3.stream_end (checksum d))
    ∧ (run (S3.download net v) (run (S3.check now net q) st).1.1).2
      = redirect (download_url d).
Proof.
  destruct (check_roads q st) as [Hm|[(Hd & Hv & Hn)|Hup]].
  - run_handler.
    by destruct (Js.truthy (query.device q)), (Js.truthy (query.version q)).
  - rewrite s3_check_up_to_date by done. simpl. by intros [= <-].
  - destruct Hup as (v & info & Hd & Hv & Hl & Hi & Hlt).
    rewrite (s3_check_update_cases now net q st v info) by done. simpl.
    destruct (S3.head net (S3.getS3Url (filename info)))
      as [code cl et|] eqn:Hh; [|done].
    destruct (Z.eqb_spec code 200) as [Hc|Hc].
    + subst code.
      destruct (S3.get net (S3.getS3Url (filename info)))
        as [c2 s|] eqn:Hg; [|done].
      destruct (Z.eqb_spec c2 200) as [Hc2|Hc2].
      * subst c2. destruct s as [sum|]; [|done]. simpl.
        intros [= <-] _. simpl. exists v, info, cl, et.
        split_and!; try done.
        rewrite (s3_download_cases net v _ info) by done. simpl.
        by rewrite Hh.
      * destruct c2 as [|p|p]; try done.
        repeat (destruct p as [p|p|]; try done).
    + destruct code as [|p|p]; try done.
      repeat (destruct p as [p|p|]; try done).
Qed.

Lemma s3_offer_points_to_the_object_witness :
  let out := run (S3.check Sample.now Sample.bucket
                    (Sample.ask (Some "D1") (Some "2.2.0"))) S3.initial in
  ∃ d, out.2 = json 200 (decision d)
       ∧ download_url d
         = "https://esp32--firmware.s3.us-east-1.amazonaws.com/sketch_feb16_3_1.ino.esp32.bin"
       ∧ ∃ v info cl et,
           latest_version d = Some v
           ∧ latestVersion (AVAILABLE_FIRMWARE S3.initial) = Some v
           ∧ AVAILABLE_FIRMWARE S3.initial !! v = Some info
           ∧ download_url d = S3.getS3Url (filename info)
           ∧ S3.head Sample.bucket (download_url d)
             = S3.head_response 200 cl et
           ∧ file_size d
             = Some (Js.parseInt (default "0" (Js.or_else cl (Some "0"))))
           ∧ S3.get Sample.bucket (download_url d)
             = S3.get_response 200 (S3.stream_end (checksum d))
           ∧ (run (S3.download Sample.bucket v) out.1.1).2
             = redirect (download_url d).
Proof.
  intros out. eexists. split; [by vm_compute|]. split; [by vm_compute|].
  apply (s3_offer_points_to_the_object Sample.now Sample.bucket
           (Sample.ask (Some "D1") (Some "2.2.0")) S3.initial);
    by vm_compute.
Defined.

(** X18: the S3 check handler answers 500 exactly when both parameters are
    there, the reported version is lexicographically smaller than the
    latest key, the bucket answered 200 to the HEAD request for the file of
    the latest release, and the download made for the checksum failed. *)
Theorem s3_check_fails_iff now net q st :
  status_of (run (S3.check now net q) st).2 = 500
  ↔ ∃ v info cl et,
      Js.truthy (query.device q) = true
      ∧ Js.truthy (query.version q) = true
      ∧ latestVersion (AVAILABLE_FIRMWARE st) = Some v
      ∧ AVAILABLE_FIRMWARE st !! v = Some info
      ∧ lex_lt (default "" (query.version q)) v
      ∧ S3.head net (S3.getS3Url (filename info))
        = S3.head_response 200 cl et
      ∧ S3.download_fails (S3.get net (S3.getS3Url (filename info))).
Proof.
  split.
  - destruct (check_roads q st) as [Hm|[(Hd & Hv & Hn)|Hup]].
    + run_handler.
      by destruct (Js.truthy (query.device q)),
        (Js.truthy (query.version q)).
    + by rewrite s3_check_up_to_date.
    + destruct Hup as (v & info & Hd & Hv & Hl & Hi & Hlt).
      rewrite (s3_check_update_cases now net q st v info) by done. simpl.
      destruct (S3.head net (S3.getS3Url (filename info)))
        as [code cl et|] eqn:Hh; [|done].
      destruct (Z.eqb_spec code 200) as [Hc|Hc].
      * subst code. intros H500. exists v, info, cl, et.
        split_and!; try done; [by apply string_lt_lex|].
        destruct (S3.get net (S3.getS3Url (filename info)))
          as [c2 s|]; [|done]. simpl.
        destruct (Z.eqb_spec c2 200) as [Hc2|Hc2]; [|by left].
        subst c2. right. by destruct s.
      * destruct code as [|p|p]; try done.
        repeat (destruct p as [p|p|]; try done).
  - intros (v & info & cl & et & Hd & Hv & Hl & Hi & Hlt & Hh & Hg).
    rewrite (s3_check_download_fails now net q st v info Hd Hv Hl Hi)
      with (cl := cl) (et := et); try done.
    by apply string_lt_lex.
Qed.

Lemma s3_check_fails_iff_witness :
  status_of (run (S3.check Sample.now Sample.breaking
                    (Sample.ask (Some "D1") (Some "2.2.0")))
               S3.initial).2 = 500.
Proof.
  apply (proj2 (s3_check_fails_iff Sample.now Sample.breaking
                  (Sample.ask (Some "D1") (Some "2.2.0")) S3.initial)).
  exists "3.1.0",
    {| filename := "sketch_feb16_3_1.ino.esp32.bin";
       release_date := "2026-02-16";
       changelog := "New features and improvements";
       mandatory := false |}, (Some "1024"), None.
  split_and!; try by vm_compute.
  - apply lex_first. by vm_compute.
  - by right.
Defined.

(** X19: an S3 download request for a version that is not a key of the
    catalog changes nothing.  It is answered 404 without any request to
    the bucket, unless the version is a name that every object inherits:
    then the handler asks the bucket for the object named [undefined], and
    answers 404 or redirects there. *)
Theorem s3_download_without_key net version st :
  AVAILABLE_FIRMWARE st !! version = None →
  let out := run (S3.download net version) st in
  let url := S3.getS3Url "undefined" in
  out.1.1 = st
  ∧ (Js.inherited version = false →
     out.1.2 = []
     ∧ out.2 = json 404 (detail "Firmware version not found"))
  ∧ (Js.inherited version = true →
     out.1.2 = [S3.HEAD url]
     ∧ (out.2 = redirect url
        ∨ out.2 = json 404 (detail "Firmware file not found"))).
Proof.
  intros Hn out url. subst out url. run_download.
  unfold Js.has_truthy, Js.get. rewrite Hn.
  destruct (Js.inherited version); simpl; [|done].
  destruct (S3.head net _) as [code cl et|]; simpl.
  - destruct (code =? 200)%Z; simpl;
      (split_and!; [done|done|intros _; split; [done|]]);
      [by left|by right].
  - split_and!; [done|done|intros _; split; [done|by right]].
Qed.

Lemma s3_download_without_key_witness :
  run (S3.download Sample.bucket "9.9.9") S3.initial
  = (S3.initial, [], json 404 (detail "Firmware version not found"))
  ∧ run (S3.download Sample.bucket "constructor") S3.initial
    = (S3.initial, [S3.HEAD (S3.getS3Url "undefined")],
       redirect (S3.getS3Url "undefined")).
Proof.
  split.
  - destruct (s3_download_without_key Sample.bucket "9.9.9" S3.initial)
      as (Hs & Hplain & _); [by vm_compute|].
    destruct Hplain as [Ht Hr]; [by vm_compute|].
    destruct (run (S3.download Sample.bucket "9.9.9") S3.initial)
      as [[s t] r]. simpl in *. by subst.
  - destruct (s3_download_without_key Sample.bucket "constructor" S3.initial)
      as (Hs & _ & Hin); [by vm_compute|].
    destruct Hin as [Ht _]; [by vm_compute|].
    by vm_compute.
Defined.

(** X20: the S3 release handler makes at most one request to the bucket, a
    HEAD request for the object of the given file name, and never
    downloads it; a request that is not accepted leaves the state as it
    was; an accepted one had status 200 for that HEAD request. *)
Theorem s3_release_asks_once now net b st :
  let out := run (S3.release now net b) st in
  let url := S3.getS3Url (default "" (body.filename b)) in
  (out.1.2 = [] ∨ out.1.2 = [S3.HEAD url])
  ∧ (status_of out.2 ≠ 200 → out.1.1 = st)
  ∧ (status_of out.2 = 200 →
     out.1.2 = [S3.HEAD url]
     ∧ ∃ cl et, S3.head net url = S3.head_response 200 cl et).
Proof.
  intros out url. subst out url. run_handler.
  destruct (Js.truthy (body.version b)); simpl;
    [|split_and!; [by left|done|done]].
  destruct (Js.truthy (body.filename b)); simpl;
    [|split_and!; [by left|done|done]].
  destruct (Js.truthy (body.changelog b)); simpl;
    [|split_and!; [by left|done|done]].
  destruct (Js.has_truthy _ _); simpl;
    [split_and!; [by left|done|done]|].
  destruct (S3.head net _) as [code cl et|] eqn:Hh; simpl;
    [|split_and!; [by right|done|done]].
  destruct (Z.eqb_spec code 200) as [Hc|Hc]; simpl;
    [|split_and!; [by right|done|done]].
  subst code. split_and!; [by right|done|]. intros _. split; [done|].
  by eexists _, _.
Qed.

Lemma s3_release_asks_once_witness :
  let out := run (S3.release Sample.now Sample.unreachable
                    Scenario.publish_10) S3.initial in
  out.1.2 = [S3.HEAD (S3.getS3Url "fw_10.bin")] ∧ out.1.1 = S3.initial.
Proof.
  intros out.
  destruct (s3_release_asks_once Sample.now Sample.unreachable
              Scenario.publish_10 S3.initial) as (_ & Hkeep & _).
  split; [by vm_compute|]. apply Hkeep. by vm_compute.
Defined.

Lemma forbidden_iff_unknown_key_witness :
  verifyApiKey Scenario.stranger = inl (json 403 (detail "Invalid API key")).
Proof.
  apply (proj2 (forbidden_iff_unknown_key Scenario.stranger)).
  exists "Bearer", "letmein". split_and!; by vm_compute.
Defined.

(** ** Release on the disk, for versions that are no inherited names *)

(** X21: for a release request whose three fields are given and whose
    version is no name inherited from [Object.prototype], the outcome is
    decided by the first check that fails, in this order: an empty field
    (400, no call to the disk), a version that is a key of the catalog
    (400, no call to the disk), a file that the disk does not find (404,
    one existence check); otherwise the record is inserted after that one
    existence check.  In the three failures the state is as it was. *)
Theorem release_outcome_by_first_failing_check now disk b st v f c :
  body.version b = Some v →
  body.filename b = Some f →
  body.changelog b = Some c →
  Js.inherited v = false →
  run (IndexJs.release now disk b) st
  = if bool_decide (v = "" ∨ f = "" ∨ c = "") then
      (st, [], json 400 (detail "Missing required fields"))
    else if bool_decide (is_Some (AVAILABLE_FIRMWARE st !! v)) then
      (st, [], json 400 (detail "Version already exists"))
    else if IndexJs.existsSync disk f then
      (publish now v f c (default false (body.mandatory b)) st,
       [IndexJs.ExistsSync f],
       json 200 (released "success" ("Firmware v" +:+ v +:+ " released")
                   v None))
    else
      (st, [IndexJs.ExistsSync f],
       json 404 (detail "Firmware file not found")).
Proof.
  intros Hv Hf Hc Hi. rewrite release_cases, Hv, Hf, Hc. simpl default.
  case_bool_decide as Hempty.
  - assert (Js.truthy (Some v) && Js.truthy (Some f) && Js.truthy (Some c)
            = false) as ->; [|done].
    destruct v, f, c; simpl; try done. by destruct Hempty as [?|[?|?]].
  - rewrite !truthy_Some by (intros ->; apply Hempty; auto). simpl.
    case_bool_decide as Hkey.
    + by rewrite (proj2 (has_truthy_spec _ _) (or_introl Hkey)).
    + rewrite (proj2 (has_truthy_false _ _)).
      * by destruct (IndexJs.existsSync disk f).
      * split; [|done]. by apply eq_None_not_Some.
Qed.

Lemma release_outcome_by_first_failing_check_witness :
  run (IndexJs.release Sample.now Sample.empty_dir
         (Sample.offer "2.2.0" "nowhere.bin" "Again" None)) IndexJs.initial
  = (IndexJs.initial, [], json 400 (detail "Version already exists"))
  ∧ run (IndexJs.release Sample.now Sample.empty_dir
           (Sample.offer "2.2.0" "nowhere.bin" "" None)) IndexJs.initial
    = (IndexJs.initial, [], json 400 (detail "Missing required fields")).
Proof.
  split.
  - rewrite (release_outcome_by_first_failing_check Sample.now
               Sample.empty_dir
               (Sample.offer "2.2.0" "nowhere.bin" "Again" None)
               IndexJs.initial
               "2.2.0" "nowhere.bin" "Again" eq_refl eq_refl eq_refl eq_refl).
    by vm_compute.
  - rewrite (release_outcome_by_first_failing_check Sample.now
               Sample.empty_dir
               (Sample.offer "2.2.0" "nowhere.bin" "" None)
               IndexJs.initial
               "2.2.0" "nowhere.bin" "" eq_refl eq_refl eq_refl eq_refl).
    by vm_compute.
Defined.

(** X22: once a version is published, a later release request for that
    version that carries a file name and a changelog is refused as a
    duplicate, whatever its payload, after any requests in between; it
    changes nothing and does not reach the disk. *)
Theorem republishing_is_refused now disk b st later now' disk' b' :
  status_of (run (IndexJs.release now disk b) st).2 = 200 →
  body.version b' = body.version b →
  Js.truthy (body.filename b') = true →
  Js.truthy (body.changelog b') = true →
  let st1 := IndexJs.serve_all later (run (IndexJs.release now disk b) st).1.1
  in
  run (IndexJs.release now' disk' b') st1
  = (st1, [], json 400 (detail "Version already exists")).
Proof.
  intros Hok Hv Hf Hc st1. subst st1. revert Hok. rewrite release_cases.
  destruct (negb _) eqn:Hall; [done|].
  destruct (Js.has_truthy _ _) eqn:Ht; [done|].
  destruct (negb (IndexJs.existsSync _ _)); [done|]. intros _. simpl.
  apply negb_false_iff in Hall.
  apply andb_true_iff in Hall as [Hall _].
  apply andb_true_iff in Hall as [Tv _].
  apply has_truthy_false in Ht as [_ Hi].
  apply release_duplicate.
  - by rewrite Hv, Tv, Hf, Hc.
  - rewrite Hv. apply has_truthy_spec. left. eexists.
    apply serve_all_keeps. by apply publish_lookup.
Qed.

Lemma republishing_is_refused_witness :
  let st1 :=
    IndexJs.serve_all [Scenario.check_in "D1" "2.2.0"]
      (run (IndexJs.release Sample.now Scenario.disk Scenario.publish_10)
         IndexJs.initial).1.1 in
  run (IndexJs.release Sample.now Sample.empty_dir
         (Sample.offer "10.0.0" "other.bin" "Tenth again" (Some true))) st1
  = (st1, [], json 400 (detail "Version already exists")).
Proof.
  apply (republishing_is_refused Sample.now Scenario.disk Scenario.publish_10
           IndexJs.initial [Scenario.check_in "D1" "2.2.0"]
           Sample.now Sample.empty_dir
           (Sample.offer "10.0.0" "other.bin" "Tenth again" (Some true)));
    by vm_compute.
Defined.

(** ** From the release to the devices *)

Lemma latestVersion_insert_greater
    (cat : gmap string FirmwareRelease) old v rec :
  latestVersion cat = Some old → lex_lt old v →
  latestVersion (<[v := rec]> cat) = Some v.
Proof.
  intros Hold Hlt. apply latestVersion_unique.
  - rewrite lookup_insert_eq. by eexists.
  - intros k. rewrite lookup_insert. case_decide; subst.
    + intros _. apply string_le_refl.
    + intros Hk. apply string_le_lex. right.
      destruct (proj1 (string_le_lex k old)) as [->|Hko];
        eauto using lex_lt_trans.
      by eapply latestVersion_upper.
Qed.

(** X23: when a release is accepted whose version is lexicographically
    greater than the latest one, a device that reports the former latest
    version and meets a disk on which the released file is found and can be
    read is offered the new version, with the checksum and the size of the
    released file and the changelog and the mandatory flag of the
    request. *)
Theorem released_version_is_offered
    now disk b st v f c old now' disk' h q device sum n :
  body.version b = Some v →
  body.filename b = Some f →
  body.changelog b = Some c →
  latestVersion (AVAILABLE_FIRMWARE st) = Some old →
  lex_lt old v →
  status_of (run (IndexJs.release now disk b) st).2 = 200 →
  query.device q = Some device → device ≠ "" →
  query.version q = Some old → old ≠ "" →
  IndexJs.existsSync disk' f = true →
  IndexJs.readFileSync_md5 disk' f = Some sum →
  IndexJs.statSync_size disk' f = Some n →
  ∃ d,
    (run (IndexJs.check now' disk' h q)
       (run (IndexJs.release now disk b) st).1.1).2
    = json 200 (decision d)
    ∧ update_available d = true
    ∧ latest_version d = Some v
    ∧ checksum d = sum
    ∧ file_size d = Some (Js.Int n)
    ∧ decision_changelog d = Some c
    ∧ decision_mandatory d = default false (body.mandatory b).
Proof.
  intros Hv Hf Hc Hold Hlt Hok Hd Hdne Hq Hone He Hr Hs. revert Hok.
  rewrite release_cases.
  destruct (negb _); [done|].
  destruct (Js.has_truthy _ _) eqn:Ht; [done|].
  destruct (negb (IndexJs.existsSync _ _)); [done|]. intros _.
  rewrite Hv, Hf, Hc in *. simpl default in *.
  apply has_truthy_false in Ht as [Hn Hi].
  set (st1 := publish now v f c (default false (body.mandatory b)) st).
  change ((st1, [IndexJs.ExistsSync f],
           json 200 (released "success" ("Firmware v" +:+ v +:+ " released")
                       v None)).1.1) with st1.
  assert (latestVersion (AVAILABLE_FIRMWARE st1) = Some v) as Hl1.
  { subst st1. simpl. unfold Js.set.
    rewrite (proj2 (String.eqb_neq _ _) (not_inherited_proto _ Hi)).
    by eapply latestVersion_insert_greater. }
  pose proof (publish_lookup now v f c (default false (body.mandatory b))
                st Hi) as Hrec.
  fold st1 in Hrec.
  rewrite (check_update_cases now' disk' h q st1 v
             {| filename := f;
                release_date := default "" (Js.index (Js.split "T" now) 0);
                changelog := c;
                mandatory := default false (body.mandatory b) |});
    try done.
  - simpl. rewrite He, Hr, Hs. simpl. by eexists.
  - rewrite Hd. by apply truthy_Some.
  - rewrite Hq. by apply truthy_Some.
  - rewrite Hq. by apply string_lt_lex.
Qed.

Lemma released_version_is_offered_witness :
  ∃ d,
    (run (IndexJs.check Sample.now Scenario.disk Scenario.key
            (Sample.ask (Some "D1") (Some "2.3.0")))
       (run (IndexJs.release Sample.now Scenario.disk
               (Sample.offer "3.0.0" "fw_3_0.bin" "Third" (Some true)))
          IndexJs.initial).1.1).2
    = json 200 (decision d)
    ∧ update_available d = true
    ∧ latest_version d = Some "3.0.0"
    ∧ checksum d = "9e107d9d372bb6826bd81d3542a419d6"
    ∧ file_size d = Some (Js.Int 2048)
    ∧ decision_changelog d = Some "Third"
    ∧ decision_mandatory d = true.
Proof.
  apply (released_version_is_offered Sample.now Scenario.disk
           (Sample.offer "3.0.0" "fw_3_0.bin" "Third" (Some true))
           IndexJs.initial "3.0.0" "fw_3_0.bin" "Third" "2.3.0"
           Sample.now Scenario.disk Scenario.key
           (Sample.ask (Some "D1") (Some "2.3.0")) "D1");
    try first [reflexivity | discriminate | by vm_compute].
  apply lex_first. by vm_compute.
Defined.

(** X24: the S3 check handler answers 404 exactly when both parameters are
    there, the reported version is lexicographically smaller than the
    latest key, and the HEAD request for the file of the latest release did
    not end in an answer with status 200: an error of the request and any
    other status of the bucket are both reported as a missing file. *)
Theorem s3_check_not_found_iff now net q st :
  status_of (run (S3.check now net q) st).2 = 404
  ↔ ∃ v info,
      Js.truthy (query.device q) = true
      ∧ Js.truthy (query.version q) = true
      ∧ latestVersion (AVAILABLE_FIRMWARE st) = Some v
      ∧ AVAILABLE_FIRMWARE st !! v = Some info
      ∧ lex_lt (default "" (query.version q)) v
      ∧ ∀ cl et, S3.head net (S3.getS3Url (filename info))
                 ≠ S3.head_response 200 cl et.
Proof.
  split.
  - destruct (check_roads q st) as [Hm|[(Hd & Hv & Hn)|Hup]].
    + run_handler.
      by destruct (Js.truthy (query.device q)),
        (Js.truthy (query.version q)).
    + by rewrite s3_check_up_to_date.
    + destruct Hup as (v & info & Hd & Hv & Hl & Hi & Hlt).
      rewrite (s3_check_update_cases now net q st v info) by done. simpl.
      intros H404. exists v, info.
      split_and!; try done; [by apply string_lt_lex|].
      intros cl et Hh. rewrite Hh in H404.
      destruct (S3.get net _) as [c2 s|]; [|done].
      destruct c2 as [|p|p]; try done.
      repeat (destruct p as [p|p|]; try done). by destruct s.
  - intros (v & info & Hd & Hv & Hl & Hi & Hlt & Hh).
    rewrite (s3_check_update_cases now net q st v info); try done;
      [|by apply string_lt_lex].
    simpl.
    destruct (S3.head net (S3.getS3Url (filename info)))
      as [code cl et|]; [|done].
    destruct (Z.eqb_spec code 200) as [Hc|Hc];
      [subst code; by destruct (Hh cl et)|].
    destruct code as [|p|p]; try done.
    repeat (destruct p as [p|p|]; try done).
Qed.

Lemma s3_check_not_found_iff_witness :
  status_of (run (S3.check Sample.now Sample.unreachable
                    (Sample.ask (Some "D1") (Some "2.2.0")))
               S3.initial).2 = 404.
Proof.
  apply (proj2 (s3_check_not_found_iff Sample.now Sample.unreachable
                  (Sample.ask (Some "D1") (Some "2.2.0")) S3.initial)).
  exists "3.1.0",
    {| filename := "sketch_feb16_3_1.ino.esp32.bin";
       release_date := "2026-02-16";
       changelog := "New features and improvements";
       mandatory := false |}.
  split_and!; try by vm_compute.
  apply lex_first. by vm_compute.
Defined.
